(** * dcms_engagement: the LLM experiment notebook and the documented packages

    A shallow embedding of [notebooks/eventclf/LLM Experiment.ipynb] (the
    prompting experiment, its post-processing of the predictions and the
    result records it writes), together with models of the package functions
    the notebook and the READMEs call but whose modules are not part of the
    sources at hand. *)

From Stdlib Require Import ZArith QArith Ascii.
From stdpp Require Import base gmap list strings.

Open Scope string_scope.

(** ** Exceptions *)

(** The Python exceptions the modelled code can raise. *)
Inductive exn := IndexError | ValueError | TypeError | FileNotFoundError.

(** A computation that returns or raises. *)
Definition result (A : Type) : Type := exn + A.

Definition ok {A} (a : A) : result A := inr a.
Definition raise {A} (e : exn) : result A := inl e.

Definition rbind {A B} (m : result A) (k : A → result B) : result B :=
  match m with
  | inl e => inl e
  | inr a => k a
  end.

(** ** Numbers *)

(** An element of the list [EventLLM.predict] returns: a number, or the float
    [nan] that stands for an output that could not be parsed. *)
Inductive pred := Num (z : Z) | NaN.

Global Instance pred_eq_dec : EqDecision pred.
Proof. solve_decision. Defined.

(** The label arrays are [np.array] of an integer csv column: 64-bit signed
    integers, whose arithmetic wraps around. *)
Definition wrap64 (z : Z) : Z := ((z + 2 ^ 63) mod 2 ^ 64 - 2 ^ 63)%Z.

(** [abs(1 - y[idx])] on an [int64] label. *)
Definition flip_label (yv : Z) : Z := wrap64 (Z.abs (wrap64 (1 - yv))).

(** A label is binary when it is 0 or 1. *)
Definition binary (z : Z) : Prop := z = 0%Z ∨ z = 1%Z.

Definition is_binary (z : Z) : bool := (z =? 0)%Z || (z =? 1)%Z.

(** ** Post-processing of the predictions (notebook line 229)

    [[abs(1-event_dict[f"y_{run}"][idx]) if np.isnan(i) else i
       for idx,i in enumerate(res)]]

    [np.isnan(i)] is the test for the constructor [NaN]. The label is read
    only at the indices where the prediction is [nan]; reading past the end
    of the array raises [IndexError]. *)
Definition clean_one (y : list Z) (idx : nat) (i : pred) : result Z :=
  match i with
  | NaN =>
      match y !! idx with
      | Some yv => ok (flip_label yv)
      | None => raise IndexError
      end
  | Num z => ok z
  end.

Fixpoint clean_from (y : list Z) (idx : nat) (res : list pred) : result (list Z) :=
  match res with
  | [] => ok []
  | i :: rest =>
      rbind (clean_one y idx i) (λ v,
      rbind (clean_from y (S idx) rest) (λ vs, ok (v :: vs)))
  end.

(** [res_clean = np.array([... for idx,i in enumerate(res)])] *)
Definition res_clean (res : list pred) (y : list Z) : result (list Z) :=
  clean_from y 0 res.

(** ** The metrics of [sklearn.metrics]

    The four scores are library functions; they are modelled on their
    documented behaviour for binary targets with the default arguments
    ([pos_label=1], [average='binary'], [zero_division='warn']). *)

(** A score: a fraction, or [nan] (the mean of an empty array). *)
Inductive score := SNum (q : Q) | SNaN.

(** Number of positions at which the pair (true label, prediction) satisfies
    [P]; positions past the shorter array do not count. *)
Fixpoint count2 (P : Z → Z → bool) (y_true y_pred : list Z) : nat :=
  match y_true, y_pred with
  | t :: ts, p :: ps => (if P t p then 1 else 0) + count2 P ts ps
  | _, _ => 0
  end.

Definition agree (t p : Z) : bool := (t =? p)%Z.
Definition true_pos (t p : Z) : bool := (t =? 1)%Z && (p =? 1)%Z.
Definition false_pos (t p : Z) : bool := negb (t =? 1)%Z && (p =? 1)%Z.
Definition false_neg (t p : Z) : bool := (t =? 1)%Z && negb (p =? 1)%Z.

(** [check_consistent_length]: arrays of different lengths are rejected. *)
Definition check_consistent_length (y_true y_pred : list Z) : result unit :=
  if decide (length y_true = length y_pred) then ok tt else raise ValueError.

(** With [average='binary'] the library takes the distinct values of the
    two arrays together: more than two of them make a multiclass target,
    which is rejected, and so are two values neither of which is
    [pos_label=1]. *)
Definition check_binary (y_true y_pred : list Z) : result unit :=
  let present_labels := remove_dups (y_true ++ y_pred)%list in
  if decide (2 < length present_labels)%nat then raise ValueError
  else if decide ((1%Z ∉ present_labels) ∧ (2 ≤ length present_labels)%nat)
       then raise ValueError
       else ok tt.

(** [num / den], and 0 where the denominator is 0 ([zero_division]). *)
Definition ratio (num den : nat) : score :=
  match den with
  | O => SNum 0
  | S _ => SNum (Z.of_nat num # Pos.of_nat den)
  end.

Definition accuracy_score (y_true y_pred : list Z) : result score :=
  rbind (check_consistent_length y_true y_pred) (λ _,
  match length y_true with
  | O => ok SNaN
  | S _ => ok (SNum (Z.of_nat (count2 agree y_true y_pred) # Pos.of_nat (length y_true)))
  end).

Definition precision_score (y_true y_pred : list Z) : result score :=
  rbind (check_consistent_length y_true y_pred) (λ _,
  rbind (check_binary y_true y_pred) (λ _,
  let tp := count2 true_pos y_true y_pred in
  let fp := count2 false_pos y_true y_pred in
  ok (ratio tp (tp + fp)))).

Definition recall_score (y_true y_pred : list Z) : result score :=
  rbind (check_consistent_length y_true y_pred) (λ _,
  rbind (check_binary y_true y_pred) (λ _,
  let tp := count2 true_pos y_true y_pred in
  let fn := count2 false_neg y_true y_pred in
  ok (ratio tp (tp + fn)))).

Definition f1_score (y_true y_pred : list Z) : result score :=
  rbind (check_consistent_length y_true y_pred) (λ _,
  rbind (check_binary y_true y_pred) (λ _,
  let tp := count2 true_pos y_true y_pred in
  let fp := count2 false_pos y_true y_pred in
  let fn := count2 false_neg y_true y_pred in
  ok (ratio (2 * tp) (2 * tp + fp + fn)))).

(** ** The LLM prediction wrapper *)

Section EventLLM.
(** The pretrained model: the text it generates for one prompt. *)
Variable llm : string → string.

(** [prompt_template.format] with the prompt inputs and the post as
    keyword arguments: Python's own string formatting. *)
Variable format : string → list (string * string) → string → string.

(** Text parsing of one model output. *)
Definition parse_output (out : string) : pred :=
  if decide (out = "Yes") then Num 1
  else if decide (out = "No") then Num 0
  else NaN.

(** Fixed-size batching: consecutive slices of [n] elements, the last one
    possibly shorter. The fuel is the number of elements left, which
    bounds the number of slices. *)
Fixpoint batches_fuel {A} (fuel n : nat) (l : list A) : list (list A) :=
  match fuel with
  | O => []
  | S fuel' =>
      match l with
      | [] => []
      | _ :: _ => take n l :: batches_fuel fuel' n (drop n l)
      end
  end.

Definition batches {A} (n : nat) (l : list A) : list (list A) :=
  batches_fuel (length l) n l.

(** One batched call to the model: one output per prompt of the batch. *)
Definition generate_batch (prompts : list string) : list string :=
  map llm prompts.

(** Modelled from the spec: [EventLLM.predict], of the module
    [eventclf.v2.models.event_llm.event_llm], which is not among the
    sources; the notebook only calls it. Following the spec, it formats
    the prompt template with the event metadata and each post, issues
    batched calls (fixed-size batches) to the model, and parses each
    output: [Yes] to 1, [No] to 0, anything else to [nan]. A batch size
    of 0 is not a batching (Python's [range] rejects a zero step). *)
Definition predict (batch_size : nat) (prompt_template : string)
    (prompt_inputs : list (string * string)) (posts : list string)
    : result (list pred) :=
  match batch_size with
  | O => raise ValueError
  | S _ =>
      let prompts := map (format prompt_template prompt_inputs) posts in
      let outputs := concat (map generate_batch (batches batch_size prompts)) in
      ok (map parse_output outputs)
  end.
End EventLLM.

(** ** The store of the notebook *)

(** References to the mutable Python objects. *)
Abbreviation loc := positive.

(** The objects the experiment shares by reference: numpy arrays of
    integers and Python lists of predictions. *)
Inductive obj := Ndarray (a : list Z) | PyList (l : list pred).

(** The values of a result record. *)
Inductive value := VStr (s : string) | VRef (l : loc) | VScore (x : score).

(** A Python dict literal, in insertion order. *)
Definition dict := list (string * value).

(** [d[key]] on a dict written as a literal. *)
Fixpoint assoc {A} (key : string) (l : list (string * A)) : option A :=
  match l with
  | [] => None
  | (k, a) :: rest => if decide (k = key) then Some a else assoc key rest
  end.

Definition keys {A} (l : list (string * A)) : list string := map fst l.

(** What [json.dump] writes for a list of result records: an array of
    objects whose members are strings, numbers and arrays of numbers. *)
Inductive jnumber := JInt (z : Z) | JFloat (q : Q) | JNaN.

Inductive jvalue :=
  | JString (s : string)
  | JNumber (n : jnumber)
  | JArray (l : list jnumber).

Definition jobject := list (string * jvalue).

Record state := mkState {
  heap : gmap loc obj;          (* the objects *)
  res_list : list dict;         (* the global [res_list] *)
  files : gmap string (list jobject);     (* the files written *)
}.

(** Notebook code: a state transformer that returns or raises. *)
Definition M (A : Type) : Type := state → result (A * state).

Global Instance M_ret : MRet M := λ A a s, inr (a, s).
Global Instance M_bind : MBind M := λ A B k m s,
  match m s with
  | inl e => inl e
  | inr (a, s') => k a s'
  end.

Definition lift {A} (r : result A) : M A := λ s,
  match r with
  | inl e => inl e
  | inr a => inr (a, s)
  end.

(** A new object gets a reference not in use. *)
Definition alloc (o : obj) : M loc := λ s,
  let l := fresh (dom (heap s)) in
  inr (l, mkState (<[l := o]> (heap s)) (res_list s) (files s)).

Definition read_array (l : loc) : M (list Z) := λ s,
  match heap s !! l with
  | Some (Ndarray a) => inr (a, s)
  | _ => inl TypeError
  end.

Definition read_list (l : loc) : M (list pred) := λ s,
  match heap s !! l with
  | Some (PyList a) => inr (a, s)
  | _ => inl TypeError
  end.

(** [res_list = []] *)
Definition reset_res_list : M unit := λ s,
  inr (tt, mkState (heap s) [] (files s)).

(** [res_list.append(res_dict)] *)
Definition append (res_dict : dict) : M unit := λ s,
  inr (tt, mkState (heap s) (res_list s ++ [res_dict]) (files s)).

(** [for x in l: body] *)
Fixpoint for_each {A} (l : list A) (body : A → M unit) : M unit :=
  match l with
  | [] => mret tt
  | x :: rest => body x ≫= λ _, for_each rest body
  end.

(** ** The notebook [LLM Experiment.ipynb] *)

(** A row of an event csv: the columns [text] and [y]. *)
Record row := mkRow { col_text : string; col_y : Z }.

(** The entries of [data_dict] as the loading and prompt cells build them. *)
Record event_data := mkEventData {
  train_data : list row;
  test_data : list row;
  event : string;
  event_description : string;
  examples : string;
}.

(** The same entry after the cell that adds the cleaned posts and the label
    arrays; the arrays are objects of the store. *)
Record event_dict := mkEventDict {
  data : event_data;
  X_train : list string;
  X_test : list string;
  y_train : loc;
  y_test : loc;
}.

(** The two runs of the inner loop, [for run in ['train','test']]. *)
Inductive run := train | test.

Definition run_name (r : run) : string :=
  match r with
  | train => "train"
  | test => "test"
  end.

(** [event_dict[f"X_{run}"]] and [event_dict[f"y_{run}"]] *)
Definition X_ (ed : event_dict) (r : run) : list string :=
  match r with
  | train => X_train ed
  | test => X_test ed
  end.

Definition y_ (ed : event_dict) (r : run) : loc :=
  match r with
  | train => y_train ed
  | test => y_test ed
  end.

Definition farnborough_examples : string := "
learning from theses examples classify the post:

EXAMPLE 1:
Post: Excellent flying seen today, always a thrill seeing the new E-156, very loud and very fast
Response: Yes 

EXAMPLE 2: 
Post:Succesful first day of @FIAFarnborough, signed a deal with @UserHandle on fuel emmision standards
Response: Yes 

EXAMPLE 3: 
Post: Cant believe how amazing it was seeing the F-14 aicrafts #putneyairshow
Response: No

EXAMPLE 4: 
Post: Farnborough Airshow facing a wave of protests around support for Qatar
Response: No
".

Definition rugby_examples : string := "
learning from theses examples classify the post:
EXAMPLE 1:
Post: Cannot believe the queues at murrayfield, going to miss the rugby at this rate
Response: Yes 

EXAMPLE 2: 
Post:Such a heartwarming dedication to to Doddy in the stadium
Response: Yes 

EXAMPLE 3: 
Post: We dont need to be giving away fouls like that @Scottishrugby, PLAY BETTER!!!! 
Response: No

EXAMPLE 4: 
Post: Love to see it!! The all blacks smashing england. DISTRUCTION
Response: No
_________
".

(** ["few shot" if len(examples) > 0 else "zero shot"] *)
Definition stratagy (examples : string) : string :=
  if (0 <? String.length examples)%nat then "few shot" else "zero shot".

(** The [prompt_dict] of the experiment loop. *)
Definition prompt_dict (ed : event_dict) (examples : string) : list (string * string) :=
  [("event", event (data ed));
   ("event_description", event_description (data ed));
   ("examples", examples)].

(** [batch_size=5] of the [event_llm] object. *)
Definition event_llm_batch_size : nat := 5.

Definition jnumber_of_pred (p : pred) : jnumber :=
  match p with
  | Num z => JInt z
  | NaN => JNaN
  end.

(** The JSON form of a value of a record. A list is written with its
    elements at the time of the dump; a numpy array is not serialisable. *)
Definition to_json (h : gmap loc obj) (v : value) : result jvalue :=
  match v with
  | VStr s => ok (JString s)
  | VScore (SNum q) => ok (JNumber (JFloat q))
  | VScore SNaN => ok (JNumber JNaN)
  | VRef l =>
      match h !! l with
      | Some (PyList ps) => ok (JArray (map jnumber_of_pred ps))
      | _ => raise TypeError
      end
  end.

(** A comprehension whose element expression can raise. *)
Fixpoint mapR {A B} (f : A → result B) (l : list A) : result (list B) :=
  match l with
  | [] => ok []
  | x :: rest =>
      rbind (f x) (λ b, rbind (mapR f rest) (λ bs, ok (b :: bs)))
  end.

Definition dump_record (h : gmap loc obj) (d : dict) : result jobject :=
  mapR (λ kv, rbind (to_json h kv.2) (λ j, ok (kv.1, j))) d.

(** [with open(name,'w') as fp: json.dump(res_list,fp)] *)
Definition json_dump (name : string) : M unit := λ s,
  match mapR (dump_record (heap s)) (res_list s) with
  | inl e => inl e
  | inr js => inr (tt, mkState (heap s) (res_list s) (<[name := js]> (files s)))
  end.

(** A loop that collects what its body returns. *)
Fixpoint mapM_state {A B} (f : A → M B) (l : list A) : M (list B) :=
  match l with
  | [] => mret []
  | x :: rest => b ← f x; bs ← mapM_state f rest; mret (b :: bs)
  end.

Section Notebook.
(** The model behind [event_llm] and Python's string formatting. *)
Variable llm : string → string.
Variable format : string → list (string * string) → string → string.

(** [pd.read_csv] on the files of the data directory. *)
Variable read_csv : string → list row.

(** [_clean_text] of [eventclf.v2.data_processing.data_processing]. *)
Variable _clean_text : string → list string → string.

(** The prompt template of the notebook. *)
Variable EVENT_ATTENTENCE_TEMPLATE : string.

Definition data_lists : list string := ["farnborough"; "rugby"].

Definition csv_path (event df : string) : string :=
  "../../../../data/processed_data/" +:+ event +:+ "_" +:+ df +:+ ".csv".

(** [data_dict] after the loading cell and the two prompt cells. *)
Definition data_dict : list (string * event_data) :=
  [("farnborough",
    {| train_data := read_csv (csv_path "farnborough" "train");
       test_data := read_csv (csv_path "farnborough" "test");
       event := "Farnborough International Airshow 2024";
       event_description := "An industry convention for those in the Aerospace, aviation and defence industry to showcase advancements and innovations in those areas";
       examples := farnborough_examples |});
   ("rugby",
    {| train_data := read_csv (csv_path "rugby" "train");
       test_data := read_csv (csv_path "rugby" "test");
       event := "Scottish Rugby Autumn Internationals Scotland Vs New Zealand";
       event_description := "A rugby match played by Scotland against New Zealand at Murrayfield stadium";
       examples := rugby_examples |})].

(** The cell that cleans the posts and builds the label arrays
    (lines 145-149), for one entry. *)
Definition prepare (d : event_data) : M event_dict :=
  let X_train := map (λ text, _clean_text text []) (map col_text (train_data d)) in
  let X_test := map (λ text, _clean_text text []) (map col_text (test_data d)) in
  y_train ← alloc (Ndarray (map col_y (train_data d)));
  y_test ← alloc (Ndarray (map col_y (test_data d)));
  mret (mkEventDict d X_train X_test y_train y_test).

Definition prepare_all (dd : list (string * event_data))
    : M (list (string * event_dict)) :=
  mapM_state (λ kv, ed ← prepare kv.2; mret (kv.1, ed)) dd.

(** [event_llm.predict(...)]: the list it returns is a new object. *)
Definition event_llm_predict (prompt_inputs : list (string * string))
    (posts : list string) : M loc :=
  out ← lift (predict llm format event_llm_batch_size
                EVENT_ATTENTENCE_TEMPLATE prompt_inputs posts);
  alloc (PyList out).

(** Lines 229-240: the predictions are cleaned, scored against the labels
    of the run and recorded. [res] is the list [predict] returned. *)
Definition score_and_append (event_key : string) (ed : event_dict)
    (examples : string) (r : run) (res : loc) : M unit :=
  res_elems ← read_list res;
  y ← read_array (y_ ed r);
  cleaned ← lift (res_clean res_elems y);
  res_clean_ref ← alloc (Ndarray cleaned);
  y_true ← read_array (y_ ed r);
  y_pred ← read_array res_clean_ref;
  f1 ← lift (f1_score y_true y_pred);
  precision ← lift (precision_score y_true y_pred);
  recall ← lift (recall_score y_true y_pred);
  accuracy ← lift (accuracy_score y_true y_pred);
  append [("event", VStr event_key);
          ("stratagy", VStr (stratagy examples));
          ("run", VStr (run_name r));
          ("res", VRef res);
          ("f1", VScore f1);
          ("precision", VScore precision);
          ("recall", VScore recall);
          ("accuracy", VScore accuracy)].

(** The body of the innermost loop (lines 224-240). *)
Definition run_body (event_key : string) (ed : event_dict)
    (examples : string) (r : run) : M unit :=
  res ← event_llm_predict (prompt_dict ed examples) (X_ ed r);
  score_and_append event_key ed examples r res.

(** The experiment loop (lines 215-240). *)
Definition experiment (dd : list (string * event_dict)) : M unit :=
  reset_res_list ≫= λ _,
  for_each dd (λ kv,
    for_each [examples (data kv.2); ""] (λ examples,
      for_each [train; test] (λ r,
        run_body kv.1 kv.2 examples r))).

(** The cells of the notebook up to the dump of the results. *)
Definition notebook : M unit :=
  dd ← prepare_all data_dict;
  experiment dd ≫= λ _,
  json_dump "llm_results.json".
End Notebook.

(** The state in which the notebook starts. *)
Definition initial_state : state := mkState ∅ [] ∅.

(** ** Text cleaning of the posts *)

Module DataProcessing.
(** Blank characters: space, tab, line feed, vertical tab, form feed and
    carriage return. *)
Definition is_space (c : ascii) : bool :=
  let n := nat_of_ascii c in
  (n =? 32)%nat || ((9 <=? n)%nat && (n <=? 13)%nat).

(** A URL starts here: the letters [http] followed by a character that is
    not blank. *)
Definition starts_url (s : string) : bool :=
  match s with
  | String c1 (String c2 (String c3 (String c4 (String c _)))) =>
      (c1 =? "h")%char && (c2 =? "t")%char && (c3 =? "t")%char &&
      (c4 =? "p")%char && negb (is_space c)
  | _ => false
  end.

(** One pass from left to right. Outside a URL a character is kept unless
    a URL starts at it; inside a URL characters are dropped up to the next
    blank, which is kept. *)
Fixpoint strip_urls (in_url : bool) (s : string) : string :=
  match s with
  | EmptyString => EmptyString
  | String c rest =>
      if in_url then
        if is_space c then String c (strip_urls false rest)
        else strip_urls true rest
      else if starts_url s then strip_urls true rest
      else String c (strip_urls false rest)
  end.

(** Modelled from the spec: [_clean_text], of the module
    [eventclf.v2.data_processing.data_processing], which is not among the
    sources; the notebook only calls it, on every post and with an empty
    list. The spec says of it that it strips URLs and no more. A URL is
    taken to be a maximal run of non-blank characters that begins with
    [http], and stripping deletes every such run. The list argument is
    not described by the spec and is not used. *)
Definition _clean_text (text : string) (words : list string) : string :=
  strip_urls false text.

(** The string has a URL at some position. *)
Definition has_url (s : string) : Prop :=
  ∃ before url, s = before +:+ url ∧ starts_url url = true.
End DataProcessing.

(** ** The ground-truth visitor data *)

Module Alva.
(** The key columns of the ALVA data (README of [location_data]). *)
Record alva_row := mkAlvaRow {
  site_name : string;
  gt_total_visits : Z;
  entry : string;
  location_type : string;
  pct_changed : Q;
  region : string;
  year : Z;
  note : string;
}.

Definition with_site_name (name : string) (r : alva_row) : alva_row :=
  mkAlvaRow name (gt_total_visits r) (entry r) (location_type r)
    (pct_changed r) (region r) (year r) (note r).

(** Rows whose site name was met before are dropped; the first row of each
    site name stays ([drop_duplicates] on the site name). *)
Fixpoint drop_duplicates (seen : gset string) (df : list alva_row) : list alva_row :=
  match df with
  | [] => []
  | r :: rest =>
      if decide (site_name r ∈ seen) then drop_duplicates seen rest
      else r :: drop_duplicates ({[site_name r]} ∪ seen) rest
  end.

Section Clean.
(** How a site name is standardised. *)
Variable standardise : string → string.

(** Modelled from the spec: [clean_alva_data], of the module
    [location_data.data_processing.alva], which is not among the
    sources; the README shows its call. Following the README (site
    names are standardised and the data is cleaned) and the spec (it
    drops duplicate site names): the csv is read, every site name is
    standardised, and duplicate site names are dropped. *)
Definition clean_alva_data (csv : gmap string (list alva_row))
    (alva_data_path : string) : result (list alva_row) :=
  match csv !! alva_data_path with
  | None => raise FileNotFoundError
  | Some df =>
      ok (drop_duplicates ∅
            (map (λ r, with_site_name (standardise (site_name r)) r) df))
  end.
End Clean.

(** A small file, used to exercise the statements. *)
Definition example_standardise (name : string) : string :=
  if decide (name = "The British Museum") then "british museum"
  else if decide (name = "British Museum") then "british museum"
  else if decide (name = "Kew Gardens") then "kew gardens"
  else name.

Definition example_rows : list alva_row :=
  [mkAlvaRow "The British Museum" 5820000 "free" "indoor" (1 # 10) "London" 2023 "";
   mkAlvaRow "Kew Gardens" 1960000 "chargeable" "outdoor" (2 # 100) "London" 2023 "";
   mkAlvaRow "British Museum" 4097000 "free" "indoor" (3 # 1) "London" 2022 ""].

Definition example_csv : gmap string (list alva_row) :=
  {["alva.csv" := example_rows]}.
End Alva.

(** ** The model wrapper of [location_data] *)

Module LocationData.
(** The four base models of the README. *)
Inductive base_model := linear_model | SVM | random_forest | xgb_model.

Definition base_models : list (string * base_model) :=
  [("linear_model", linear_model); ("SVM", SVM);
   ("random_forest", random_forest); ("xgb_model", xgb_model)].

Section Wrapper.
(** The estimators of the libraries: their objects, how one of each
    base model is made with the parameters of the experiments, the
    [fit] and [predict] of the estimator interface, and [pickle]. *)
Variable estimator : Type.
Variable features targets : Type.
Variable new_estimator : base_model → estimator.
Variable estimator_fit : estimator → features → targets → estimator.
Variable estimator_predict : estimator → features → targets.
Variable pickle_dumps : estimator → string.
Variable pickle_loads : string → option estimator.

Record LocationDataModel := mkModel {
  model : string;          (* the key *)
  base : estimator;        (* the estimator selected or loaded *)
}.

(** Modelled from the spec: the class [LocationDataModel], of the module
    [location_data.models.location_data_model], which is not among the
    sources; the README shows its use. Following the spec, the
    constructor selects one of four fixed estimator types by the string
    key (or loads a pickled one from [load_path]), [fit] and [predict]
    delegate to that estimator, and [save] pickles it. *)
Definition init (key : string) (load_path : option string)
    (fs : gmap string string) : result LocationDataModel :=
  match assoc key base_models with
  | None => raise ValueError
  | Some m =>
      match load_path with
      | None => ok (mkModel key (new_estimator m))
      | Some path =>
          match fs !! path with
          | None => raise FileNotFoundError
          | Some bytes =>
              match pickle_loads bytes with
              | None => raise ValueError
              | Some e => ok (mkModel key e)
              end
          end
      end
  end.

Definition fit (m : LocationDataModel) (X : features) (y : targets)
    : LocationDataModel :=
  mkModel (model m) (estimator_fit (base m) X y).

Definition predict (m : LocationDataModel) (X : features) : targets :=
  estimator_predict (base m) X.

Definition save (m : LocationDataModel) (path : string)
    (fs : gmap string string) : gmap string string :=
  <[path := pickle_dumps (base m)]> fs.
End Wrapper.
End LocationData.

(** ** What the experiment is expected to record *)

(** The keys of a result record, in order. *)
Definition record_keys : list string :=
  ["event"; "stratagy"; "run"; "res"; "f1"; "precision"; "recall"; "accuracy"].

(** The [res_dict] literal of the loop, as a function of its fields. *)
Definition make_record (event_key strat run_str : string) (res : loc)
    (f1 precision recall accuracy : score) : dict :=
  [("event", VStr event_key); ("stratagy", VStr strat); ("run", VStr run_str);
   ("res", VRef res); ("f1", VScore f1); ("precision", VScore precision);
   ("recall", VScore recall); ("accuracy", VScore accuracy)].

Section Records.
Variable llm : string → string.
Variable format : string → list (string * string) → string → string.
Variable template : string.

(** One pass of the innermost loop: event key, entry, examples string of
    the prompt inputs, run. *)
Definition combo : Type := string * event_dict * string * run.

(** The passes of the three nested loops, in iteration order. *)
Definition combos (dd : list (string * event_dict)) : list combo :=
  kv ← dd;
  examples ← [examples (data kv.2); ""];
  r ← [train; test];
  [(kv.1, kv.2, examples, r)].

(** The predictions of the model for the posts of a pass, as parsed. *)
Definition raw_predictions (c : combo) : list pred :=
  let '(_, ed, examples, r) := c in
  map (λ post, parse_output (llm (format template (prompt_dict ed examples) post)))
    (X_ ed r).

(** [d] is the record of pass [c] in store [h]: its [res] refers to the
    list of raw predictions and its scores are those of the cleaned
    predictions against the labels of the pass. *)
Definition record_of (h : gmap loc obj) (c : combo) (d : dict) : Prop :=
  let '(event_key, ed, examples, r) := c in
  ∃ res y cleaned f1 precision recall accuracy,
    d = make_record event_key (stratagy examples) (run_name r) res
          f1 precision recall accuracy ∧
    h !! res = Some (PyList (raw_predictions c)) ∧
    h !! y_ ed r = Some (Ndarray y) ∧
    res_clean (raw_predictions c) y = inr cleaned ∧
    f1_score y cleaned = inr f1 ∧
    precision_score y cleaned = inr precision ∧
    recall_score y cleaned = inr recall ∧
    accuracy_score y cleaned = inr accuracy.

(** The store holds, for every entry and run, a label array with one
    binary label per post. *)
Definition ready (dd : list (string * event_dict)) (h : gmap loc obj) : Prop :=
  ∀ key ed r, (key, ed) ∈ dd →
    ∃ y, h !! y_ ed r = Some (Ndarray y) ∧
         length y = length (X_ ed r) ∧ Forall binary y.

(** From [s] to [s'] the store only gained objects, the files are the
    same, and [res_list] gained one record per pass of [cs]. *)
Definition appended (cs : list combo) (s s' : state) : Prop :=
  ∃ ds, heap s ⊆ heap s' ∧
        res_list s' = (res_list s ++ ds)%list ∧
        files s' = files s ∧
        Forall2 (record_of (heap s')) cs ds.
End Records.

(** How many predictions are [nan]. *)
Definition nan_count (res : list pred) : nat :=
  length (filter (λ i, i = NaN) res).

(** The labels of a csv are binary. *)
Definition binary_labels (df : list row) : Prop :=
  Forall (λ r, binary (col_y r)) df.

(** A prediction is a label or [nan]. *)
Definition label_or_nan (p : pred) : Prop :=
  p = NaN ∨ ∃ z, p = Num z ∧ binary z.

(** The indices at which the prediction equals the label. *)
Definition agreeing (y_true y_pred : list Z) : list nat :=
  filter (λ i, y_pred !! i = y_true !! i) (seq 0 (length y_true)).

(** ** A small instance, used to exercise the statements *)

Definition example_llm (prompt : string) : string :=
  if decide (prompt = "at the stadium now") then "Yes"
  else if decide (prompt = "watching on tv") then "No"
  else "Maybe".

Definition example_format (prompt_template : string)
    (prompt_inputs : list (string * string)) (post : string) : string := post.

Definition example_entry : event_dict :=
  {| data := {| train_data := [mkRow "at the stadium now" 1; mkRow "what a day" 0];
                test_data := [mkRow "watching on tv" 0];
                event := "A match";
                event_description := "A rugby match";
                examples := "Post: we are in! Response: Yes" |};
     X_train := ["at the stadium now"; "what a day"];
     X_test := ["watching on tv"];
     y_train := 1%positive;
     y_test := 2%positive |}.

Definition example_store : gmap loc obj :=
  {[1%positive := Ndarray [1; 0]%Z; 2%positive := Ndarray [0]%Z]}.

Definition example_state : state := mkState example_store [] ∅.

Definition example_csv (path : string) : list row :=
  [mkRow "at the stadium now" 1; mkRow "watching on tv" 0].

(** The store after [predict] returned the list at reference 3. *)
Definition example_predicted : state :=
  mkState (<[3%positive := PyList [Num 1; NaN]]> example_store) [] ∅.

(** ** The inspection cells after the loop (lines 333-353)

    They work on the variables the loop and the cells before them leave
    behind: a prediction list [res], a label array and a list to select
    from. *)

(** [np.nan_to_num(res,nan=v)] on a list of predictions. *)
Definition nan_to_num (res : list pred) (nan : Z) : list Z :=
  map (λ i, match i with
            | NaN => nan
            | Num z => z
            end) res.

(** Line 333: [accuracy_score(event_dict[f"y_{run}"],np.nan_to_num(res,nan=2))] *)
Definition accuracy_nan_as_2 (y : list Z) (res : list pred) : result score :=
  accuracy_score y (nan_to_num res 2).

(** [np.array(res)==v]: [nan] is equal to no number. *)
Definition res_eq (res : list pred) (v : Z) : list bool :=
  map (λ i, match i with
            | NaN => false
            | Num z => (z =? v)%Z
            end) res.

(** [y==v] on a label array. *)
Definition array_eq (y : list Z) (v : Z) : list bool :=
  map (λ z, (z =? v)%Z) y.

(** [a & b] on boolean arrays. Arrays of the same length are combined
    element by element, an array of one element is broadcast over the
    other, and any other pair of lengths is rejected. *)
Definition np_and (a b : list bool) : result (list bool) :=
  if decide (length a = length b) then ok (zip_with andb a b)
  else match a, b with
       | [x], _ => ok (map (andb x) b)
       | _, [x] => ok (map (λ v, v && x) a)
       | _, _ => raise ValueError
       end.

(** [pd.Series(values)[mask].tolist()] for a boolean array [mask]: the
    values at the positions where the mask is true; a mask of another
    length than the series is rejected. *)
Definition series_mask {A} (values : list A) (mask : list bool) : result (list A) :=
  if decide (length mask = length values)
  then ok (map fst (filter (λ p, p.2 = true) (zip values mask)))
  else raise IndexError.

(** Line 343: [pd.Series(event_llm._out)[(np.array(res)==1) &
    (event_dict['y_train']==0)].tolist()], the raw outputs of the posts
    predicted 1 and labelled 0. *)
Definition predicted_1_labelled_0 {A} (series : list A) (res : list pred)
    (y : list Z) : result (list A) :=
  rbind (np_and (res_eq res 1) (array_eq y 0)) (series_mask series).

(** Line 353: [pd.Series(event_dict['X_train'])[(np.array(res)==0) &
    (event_dict['y_train']==1)].tolist()], the posts predicted 0 and
    labelled 1. *)
Definition predicted_0_labelled_1 {A} (series : list A) (res : list pred)
    (y : list Z) : result (list A) :=
  rbind (np_and (res_eq res 0) (array_eq y 1)) (series_mask series).

(** Number of positions where the prediction is [nan] and the label is [v]. *)
Definition nan_at (v : Z) (res : list pred) (y : list Z) : nat :=
  length (filter (λ p, p.1 = NaN ∧ p.2 = v) (zip res y)).

(** The value line 229 puts for a prediction and its label. *)
Definition cleaned_value (i : pred) (yv : Z) : Z :=
  match i with
  | NaN => flip_label yv
  | Num z => z
  end.

(** The indices at which the prediction is the number [v] and the label
    is [w], in increasing order. *)
Definition positions (v w : Z) (res : list pred) (y : list Z) : list nat :=
  filter (λ i, res !! i = Some (Num v) ∧ y !! i = Some w) (seq 0 (length res)).

(** ** The JSON form of a record *)

(** The JSON number of a score. *)
Definition jnumber_of_score (x : score) : jnumber :=
  match x with
  | SNum q => JFloat q
  | SNaN => JNaN
  end.

(** The JSON object [json.dump] writes for a record whose fields are these
    and whose [res] list holds [raw]. *)
Definition json_record (event_key strat run_str : string) (raw : list pred)
    (f1 precision recall accuracy : score) : jobject :=
  [("event", JString event_key); ("stratagy", JString strat); ("run", JString run_str);
   ("res", JArray (map jnumber_of_pred raw));
   ("f1", JNumber (jnumber_of_score f1));
   ("precision", JNumber (jnumber_of_score precision));
   ("recall", JNumber (jnumber_of_score recall));
   ("accuracy", JNumber (jnumber_of_score accuracy))].

(** A record and the JSON object written for it: the object has the fields
    of the record, and its [res] is the list the record refers to. *)
Definition written_as (h : gmap loc obj) (d : dict) (j : jobject) : Prop :=
  ∃ event_key strat run_str res raw f1 precision recall accuracy,
    d = make_record event_key strat run_str res f1 precision recall accuracy ∧
    h !! res = Some (PyList raw) ∧
    j = json_record event_key strat run_str raw f1 precision recall accuracy.

(** * Properties *)

Open Scope nat_scope.

(** Closes a goal [Forall binary l] on a literal list [l]. *)
Ltac binary_list :=
  repeat first [apply Forall_nil_2 | apply Forall_cons_2];
  unfold binary; simpl; lia.

(** ** The post-processing of the predictions *)

Lemma flip_label_binary yv :
  binary yv → flip_label yv = Z.abs (1 - yv) ∧ flip_label yv ≠ yv ∧ binary (flip_label yv).
Proof.
  intros [-> | ->]; unfold binary; vm_compute; repeat split; auto; discriminate.
Qed.

Lemma clean_from_spec y res : ∀ idx,
  (∀ k, res !! k = Some NaN → idx + k < length y) →
  ∃ rc, clean_from y idx res = inr rc ∧ length rc = length res ∧
    ∀ k i, res !! k = Some i →
      rc !! k = match i with
                | NaN => flip_label <$> y !! (idx + k)
                | Num z => Some z
                end.
Proof.
  induction res as [| i rest IH]; intros idx Hlen.
  - exists []. split; [done |]. split; [done |]. intros k i Hk. by rewrite lookup_nil in Hk.
  - destruct (IH (S idx)) as (vs & Hvs & Hl & Hnth).
    { intros k Hnan. specialize (Hlen (S k)). simpl in Hlen.
      replace (S idx + k) with (idx + S k) by lia. by apply Hlen. }
    assert (∃ v, clean_one y idx i = inr v ∧
                 Some v = match i with
                          | NaN => flip_label <$> y !! (idx + 0)
                          | Num z => Some z
                          end) as (v & Hv & Hvi).
    { destruct i as [z |]; simpl.
      - by exists z.
      - assert (idx + 0 < length y) as Hlt by (by apply Hlen).
        replace (idx + 0) with idx in * by lia.
        destruct (lookup_lt_is_Some_2 y idx Hlt) as [yv Hyv].
        rewrite Hyv. by exists (flip_label yv). }
    exists (v :: vs). simpl. rewrite Hv. simpl. rewrite Hvs. simpl.
    split; [done |]. split; [by rewrite Hl |].
    intros [| k] j Hj; simpl in Hj.
    + injection Hj as <-. simpl. by rewrite <- Hvi.
    + simpl. rewrite (Hnth k j Hj). by replace (S idx + k) with (idx + S k) by lia.
Qed.

Lemma res_clean_spec res y :
  length res = length y →
  ∃ rc, res_clean res y = inr rc ∧ length rc = length res ∧
    ∀ k i, res !! k = Some i →
      rc !! k = match i with
                | NaN => flip_label <$> y !! k
                | Num z => Some z
                end.
Proof.
  intros Hlen. apply (clean_from_spec y res 0).
  intros k Hk. apply lookup_lt_Some in Hk. simpl. lia.
Qed.

Lemma Forall_binary_lookup (y : list Z) i yv :
  Forall binary y → y !! i = Some yv → binary yv.
Proof. intros HF Hi. by eapply Forall_lookup_1. Qed.

(** C1: for a prediction list and a label array of the same length, with
    labels 0 or 1, the cleaned array exists, has one entry per prediction,
    holds the flipped label |1 - y[i]| where the prediction is nan and the
    prediction itself elsewhere. *)
Theorem res_clean_flips_nan (res : list pred) (y : list Z) :
  length res = length y →
  Forall binary y →
  ∃ rc, res_clean res y = inr rc ∧ length rc = length res ∧
    ∀ i yv, y !! i = Some yv →
      (res !! i = Some NaN → rc !! i = Some (Z.abs (1 - yv))) ∧
      (∀ z, res !! i = Some (Num z) → rc !! i = Some z).
Proof.
  intros Hlen Hbin.
  destruct (res_clean_spec res y Hlen) as (rc & Hrc & Hl & Hnth).
  exists rc. split; [done |]. split; [done |].
  intros i yv Hy. split.
  - intros Hr. rewrite (Hnth _ _ Hr), Hy. simpl.
    by destruct (flip_label_binary yv (Forall_binary_lookup _ _ _ Hbin Hy)) as [-> _].
  - intros z Hr. by rewrite (Hnth _ _ Hr).
Qed.

Lemma res_clean_flips_nan_witness :
  ∃ rc, res_clean [Num 1; NaN; Num 0; NaN] [1; 1; 1; 0]%Z = inr rc ∧
    length rc = 4 ∧
    ∀ i yv, [1; 1; 1; 0]%Z !! i = Some yv →
      ([Num 1; NaN; Num 0; NaN] !! i = Some NaN → rc !! i = Some (Z.abs (1 - yv))) ∧
      (∀ z, [Num 1; NaN; Num 0; NaN] !! i = Some (Num z) → rc !! i = Some z).
Proof.
  apply (res_clean_flips_nan [Num 1; NaN; Num 0; NaN] [1; 1; 1; 0]%Z).
  - reflexivity.
  - binary_list.
Defined.

(** ** Predictions that could not be parsed count as errors *)

Lemma count2_le P (y_true y_pred : list Z) : count2 P y_true y_pred ≤ length y_true.
Proof.
  revert y_pred. induction y_true as [| t ts IH]; intros [| p ps]; simpl; try lia.
  specialize (IH ps). destruct (P t p); lia.
Qed.

Lemma count2_agree_insert (y rc : list Z) i yv v :
  y !! i = Some yv → rc !! i = Some v → v ≠ yv →
  count2 agree y (<[i := yv]> rc) = S (count2 agree y rc).
Proof.
  revert rc i. induction y as [| t ts IH]; intros [| p ps] [| i] Hy Hr Hne;
    simpl in *; try discriminate.
  - injection Hy as ->. injection Hr as ->. unfold agree.
    rewrite Z.eqb_refl. destruct (Z.eqb_spec yv v); [congruence | done].
  - rewrite (IH ps i Hy Hr Hne). destruct (agree t p); lia.
Qed.

Lemma clean_from_inv y res : ∀ idx rc,
  clean_from y idx res = inr rc →
  length rc = length res ∧
  ∀ k i, res !! k = Some i →
    rc !! k = match i with
              | NaN => flip_label <$> y !! (idx + k)
              | Num z => Some z
              end.
Proof.
  induction res as [| i rest IH]; intros idx rc Hrc; simpl in Hrc.
  - injection Hrc as <-. split; [done |]. intros k i Hk. by rewrite lookup_nil in Hk.
  - destruct (clean_one y idx i) as [e | v] eqn:Hv; simpl in Hrc; [discriminate |].
    destruct (clean_from y (S idx) rest) as [e | vs] eqn:Hvs; simpl in Hrc; [discriminate |].
    injection Hrc as <-. destruct (IH _ _ Hvs) as [Hl Hnth].
    split; [simpl; by rewrite Hl |].
    intros [| k] j Hj; simpl in Hj.
    + injection Hj as <-. simpl. replace (idx + 0) with idx by lia.
      destruct i as [z |]; simpl in Hv.
      * by injection Hv as ->.
      * destruct (y !! idx); simpl in *; [by injection Hv as <- | discriminate].
    + simpl. rewrite (Hnth k j Hj). by replace (S idx + k) with (idx + S k) by lia.
Qed.

Lemma clean_from_errors y res : ∀ idx rc,
  Forall binary y →
  idx + length res = length y →
  clean_from y idx res = inr rc →
  count2 agree (drop idx y) rc + nan_count res ≤ length res.
Proof.
  induction res as [| i rest IH]; intros idx rc Hbin Hlen Hrc; simpl in Hrc.
  - injection Hrc as <-. by destruct (drop idx y).
  - destruct (clean_one y idx i) as [e | v] eqn:Hv; simpl in Hrc; [discriminate |].
    destruct (clean_from y (S idx) rest) as [e | vs] eqn:Hvs; simpl in Hrc; [discriminate |].
    injection Hrc as <-.
    assert (idx < length y) as Hlt by (simpl in Hlen; lia).
    destruct (lookup_lt_is_Some_2 y idx Hlt) as [yv Hyv].
    rewrite (drop_S _ _ _ Hyv). cbn [count2 length].
    assert (count2 agree (drop (S idx) y) vs + nan_count rest ≤ length rest) as Hrest.
    { apply IH; [done | simpl in Hlen; lia | done]. }
    clear IH. unfold nan_count in *. rewrite filter_cons.
    destruct i as [z |]; simpl in Hv.
    + rewrite decide_False by done. injection Hv as <-.
      destruct (agree yv z); simpl in *; lia.
    + rewrite decide_True by done. rewrite Hyv in Hv. injection Hv as <-.
      destruct (flip_label_binary yv (Forall_binary_lookup _ _ _ Hbin Hyv)) as (_ & Hne & _).
      unfold agree at 1. destruct (Z.eqb_spec yv (flip_label yv)); [congruence |].
      cbn [length]. lia.
Qed.

(** C2: with labels 0 or 1, a prediction that is nan is cleaned to a value
    different from the label, so it is scored as an error: the entries that
    agree with the labels are at most those that are not nan, and had the
    prediction been the label itself, one more entry would agree and the
    accuracy would be strictly higher. *)
Theorem nan_is_scored_as_error (res : list pred) (y rc : list Z) (i : nat) (yv : Z) :
  length res = length y →
  Forall binary y →
  res_clean res y = inr rc →
  res !! i = Some NaN →
  y !! i = Some yv →
  rc !! i ≠ Some yv ∧
  count2 agree y rc + nan_count res ≤ length y ∧
  ∃ rc' a a',
    res_clean (<[i := Num yv]> res) y = inr rc' ∧
    count2 agree y rc' = S (count2 agree y rc) ∧
    accuracy_score y rc = inr (SNum a) ∧
    accuracy_score y rc' = inr (SNum a') ∧
    (a < a')%Q.
Proof.
  intros Hlen Hbin Hrc Hi Hy.
  destruct (clean_from_inv _ _ _ _ Hrc) as [Hl Hnth].
  destruct (flip_label_binary yv (Forall_binary_lookup _ _ _ Hbin Hy)) as (_ & Hne & _).
  assert (rc !! i = Some (flip_label yv)) as Hrci.
  { rewrite (Hnth _ _ Hi). simpl. by rewrite Hy. }
  split; [rewrite Hrci; congruence |].
  split.
  { pose proof (clean_from_errors y res 0 rc Hbin) as Herr.
    rewrite drop_0 in Herr. rewrite <- Hlen. by apply Herr. }
  destruct (res_clean_spec (<[i := Num yv]> res) y) as (rc' & Hrc' & Hl' & Hnth').
  { by rewrite length_insert. }
  rewrite length_insert in Hl'.
  assert (rc' = <[i := yv]> rc) as ->.
  { apply list_eq. intros k. destruct (decide (k = i)) as [-> | Hk].
    - rewrite list_lookup_insert_eq by (apply lookup_lt_Some in Hrci; lia).
      rewrite (Hnth' i (Num yv)); [done |].
      apply list_lookup_insert_eq. by apply lookup_lt_Some in Hi.
    - rewrite list_lookup_insert_ne by done.
      destruct (res !! k) as [j |] eqn:Hk'.
      + rewrite (Hnth' k j), (Hnth k j); [done | done |].
        by rewrite list_lookup_insert_ne.
      + apply lookup_ge_None in Hk'.
        rewrite (lookup_ge_None_2 rc'), (lookup_ge_None_2 rc); [done | lia | lia]. }
  pose proof (count2_agree_insert y rc i yv _ Hy Hrci Hne) as Hcount.
  pose proof (count2_le agree y (<[i:=yv]> rc)) as Hle.
  assert (0 < length y) as Hpos by (apply lookup_lt_Some in Hy; lia).
  exists (<[i:=yv]> rc).
  unfold accuracy_score, check_consistent_length.
  rewrite !length_insert.
  destruct (decide (length y = length rc)) as [_ | Hbad]; [| lia].
  simpl. destruct (length y) as [| n] eqn:Hn; [lia |].
  eexists _, _. split; [exact Hrc' |]. split; [exact Hcount |].
  split; [reflexivity |]. split; [reflexivity |].
  rewrite Hcount. unfold Qlt. simpl. nia.
Qed.

Lemma nan_is_scored_as_error_witness :
  [1; 1; 0]%Z !! 1 ≠ Some 0%Z ∧
  count2 agree [1; 0; 1]%Z [1; 1; 0]%Z + nan_count [Num 1; NaN; Num 0] ≤ 3 ∧
  ∃ rc' a a',
    res_clean (<[1 := Num 0]> [Num 1; NaN; Num 0]) [1; 0; 1]%Z = inr rc' ∧
    count2 agree [1; 0; 1]%Z rc' = S (count2 agree [1; 0; 1]%Z [1; 1; 0]%Z) ∧
    accuracy_score [1; 0; 1]%Z [1; 1; 0]%Z = inr (SNum a) ∧
    accuracy_score [1; 0; 1]%Z rc' = inr (SNum a') ∧
    (a < a')%Q.
Proof.
  apply (nan_is_scored_as_error [Num 1; NaN; Num 0] [1; 0; 1]%Z [1; 1; 0]%Z 1 0%Z).
  - reflexivity.
  - binary_list.
  - reflexivity.
  - reflexivity.
  - reflexivity.
Defined.

(** ** The prediction wrapper *)

Lemma batches_fuel_concat {A} (n : nat) : ∀ fuel (l : list A),
  0 < n → length l ≤ fuel → concat (batches_fuel fuel n l) = l.
Proof.
  induction fuel as [| fuel IH]; intros l Hn Hl.
  - destruct l; [done | simpl in Hl; lia].
  - destruct l as [| x l']; [done |].
    change ((take n (x :: l') ++ concat (batches_fuel fuel n (drop n (x :: l'))))%list = x :: l').
    rewrite IH; [apply take_drop | done |].
    rewrite length_drop. simpl in *. lia.
Qed.

Lemma batches_concat {A} (n : nat) (l : list A) : 0 < n → concat (batches n l) = l.
Proof. intros Hn. by apply batches_fuel_concat. Qed.

Lemma generate_batches_flat llm (bs : list (list string)) :
  concat (map (generate_batch llm) bs) = map llm (concat bs).
Proof.
  induction bs as [| b bs IH]; [done |].
  simpl. rewrite IH. unfold generate_batch. by rewrite map_app.
Qed.

Lemma predict_eq llm format batch_size template prompt_inputs posts :
  0 < batch_size →
  predict llm format batch_size template prompt_inputs posts =
    inr (map (λ post, parse_output (llm (format template prompt_inputs post))) posts).
Proof.
  intros Hn. unfold predict. destruct batch_size as [| n]; [lia |].
  rewrite generate_batches_flat, batches_concat by lia.
  unfold ok. f_equal. rewrite !map_map. reflexivity.
Qed.

(** C3: with a batch size that is not 0, predict returns one value per post,
    in the order of the posts; the value of a post is its model output
    parsed, where Yes gives 1, No gives 0 and every other output gives nan. *)
Theorem predict_one_label_per_post (llm : string → string)
    (format : string → list (string * string) → string → string)
    (batch_size : nat) (template : string)
    (prompt_inputs : list (string * string)) (posts : list string) :
  0 < batch_size →
  ∃ res, predict llm format batch_size template prompt_inputs posts = inr res ∧
    length res = length posts ∧
    (∀ k post, posts !! k = Some post →
       res !! k = Some (parse_output (llm (format template prompt_inputs post)))) ∧
    parse_output "Yes" = Num 1 ∧
    parse_output "No" = Num 0 ∧
    (∀ out, out ≠ "Yes" → out ≠ "No" → parse_output out = NaN).
Proof.
  intros Hn. rewrite predict_eq by done. eexists. split; [reflexivity |].
  split; [apply length_map |]. split.
  - intros k post Hk. rewrite list_lookup_fmap, Hk. done.
  - split; [reflexivity |]. split; [reflexivity |].
    intros out Hy Hno. unfold parse_output. by repeat case_decide.
Qed.

Lemma predict_one_label_per_post_witness :
  ∃ res, predict (λ prompt, if decide (prompt = "a") then "Yes" else "No ")
           (λ _ _ post, post) 2 "" [] ["a"; "b"; "a"] = inr res ∧
    length res = 3 ∧
    (∀ k post, ["a"; "b"; "a"] !! k = Some post →
       res !! k = Some (parse_output (if decide (post = "a") then "Yes" else "No "))) ∧
    parse_output "Yes" = Num 1 ∧
    parse_output "No" = Num 0 ∧
    (∀ out, out ≠ "Yes" → out ≠ "No" → parse_output out = NaN).
Proof.
  apply (predict_one_label_per_post
           (λ prompt, if decide (prompt = "a") then "Yes" else "No ")
           (λ _ _ post, post) 2 "" [] ["a"; "b"; "a"]).
  lia.
Defined.

(** ** The store and the loop body *)

Lemma is_binary_spec z : is_binary z = true ↔ binary z.
Proof.
  unfold is_binary, binary. rewrite orb_true_iff, !Z.eqb_eq. done.
Qed.

Lemma forallb_is_binary (l : list Z) : Forall binary l → forallb is_binary l = true.
Proof.
  induction 1 as [| z l Hz _ IH]; [done |].
  simpl. rewrite IH. by apply is_binary_spec in Hz as ->.
Qed.

Lemma parse_output_label out : label_or_nan (parse_output out).
Proof.
  unfold label_or_nan, parse_output, binary. repeat case_decide; eauto.
Qed.

Lemma res_clean_binary res y rc :
  Forall binary y → Forall label_or_nan res →
  res_clean res y = inr rc →
  Forall binary rc.
Proof.
  intros Hy Hres Hrc. destruct (clean_from_inv _ _ _ _ Hrc) as [Hl Hnth].
  apply Forall_lookup_2. intros k v Hk.
  assert (k < length res) as Hlt by (apply lookup_lt_Some in Hk; lia).
  destruct (lookup_lt_is_Some_2 res k Hlt) as [p Hp].
  rewrite (Hnth _ _ Hp) in Hk.
  destruct (Forall_lookup_1 _ _ _ _ Hres Hp) as [-> | (z & -> & Hz)].
  - simpl in Hk. destruct (y !! k) as [yv |] eqn:Hyk; simpl in Hk; [| discriminate].
    injection Hk as <-.
    by destruct (flip_label_binary yv (Forall_binary_lookup _ _ _ Hy Hyk)) as (_ & _ & ?).
  - by injection Hk as <-.
Qed.

(** Arrays of 0 and 1 pass the check of the binary average. *)
Lemma check_binary_ok (y rc : list Z) :
  Forall binary y → Forall binary rc → check_binary y rc = inr tt.
Proof.
  intros Hy Hrc. unfold check_binary.
  assert (∀ x, x ∈ remove_dups (y ++ rc) → binary x) as Hbin.
  { intros x Hx. apply elem_of_remove_dups, elem_of_app in Hx.
    rewrite Forall_forall in Hy, Hrc. destruct Hx; auto. }
  assert (length (remove_dups (y ++ rc)) ≤ 2) as Hle.
  { apply (submseteq_length _ [0; 1]%Z), NoDup_submseteq; [apply NoDup_remove_dups |].
    intros x Hx. destruct (Hbin x Hx) as [-> | ->]; repeat constructor. }
  rewrite decide_False by lia.
  rewrite decide_False; [done |].
  intros [Hone Hlen].
  assert (length (remove_dups (y ++ rc)) ≤ 1); [| lia].
  apply (submseteq_length _ [0%Z]), NoDup_submseteq; [apply NoDup_remove_dups |].
  intros x Hx. destruct (Hbin x Hx) as [-> | ->]; [constructor | done].
Qed.

Lemma metrics_defined (y rc : list Z) :
  length y = length rc → Forall binary y → Forall binary rc →
  ∃ f1 precision recall accuracy,
    f1_score y rc = inr f1 ∧ precision_score y rc = inr precision ∧
    recall_score y rc = inr recall ∧ accuracy_score y rc = inr accuracy.
Proof.
  intros Hl Hy Hrc.
  unfold f1_score, precision_score, recall_score, accuracy_score,
    check_consistent_length.
  rewrite decide_True by done.
  rewrite (check_binary_ok _ _ Hy Hrc). simpl.
  destruct (length y); eauto 10.
Qed.

Lemma bind_inr {A B} (m : M A) (k : A → M B) s a s1 :
  m s = inr (a, s1) → (m ≫= k) s = k a s1.
Proof. intros H. unfold mbind, M_bind. by rewrite H. Qed.

(** Runs the next statement of a notebook computation, given what it
    returns ([step]) or the value of the pure expression it lifts
    ([step_pure]). *)
Ltac step H := erewrite bind_inr; [| exact H].
Ltac step_pure H := erewrite bind_inr; [| unfold lift; rewrite H; reflexivity].

Lemma alloc_spec o s :
  ∃ l, heap s !! l = None ∧
    alloc o s = inr (l, mkState (<[l := o]> (heap s)) (res_list s) (files s)).
Proof.
  exists (fresh (dom (heap s))). split; [| done].
  apply not_elem_of_dom, is_fresh.
Qed.

Lemma raw_predictions_labels llm format template c :
  Forall label_or_nan (raw_predictions llm format template c).
Proof.
  destruct c as [[[key ed] examples] r]. unfold raw_predictions.
  apply Forall_lookup_2. intros k p Hk.
  rewrite list_lookup_fmap in Hk. destruct (X_ ed r !! k); [| discriminate].
  injection Hk as <-. apply parse_output_label.
Qed.

(** Cleaning, scoring and recording a list of predictions adds one array to
    the store and one record to [res_list], and nothing else. *)
Lemma score_and_append_spec event_key ed examples r res s raw y :
  heap s !! res = Some (PyList raw) →
  heap s !! y_ ed r = Some (Ndarray y) →
  length raw = length y →
  Forall binary y →
  Forall label_or_nan raw →
  ∃ l cleaned f1 precision recall accuracy,
    heap s !! l = None ∧
    res_clean raw y = inr cleaned ∧
    f1_score y cleaned = inr f1 ∧
    precision_score y cleaned = inr precision ∧
    recall_score y cleaned = inr recall ∧
    accuracy_score y cleaned = inr accuracy ∧
    score_and_append event_key ed examples r res s =
      inr (tt, mkState (<[l := Ndarray cleaned]> (heap s))
                 (res_list s ++
                    [make_record event_key (stratagy examples) (run_name r) res
                       f1 precision recall accuracy])
                 (files s)).
Proof.
  intros Hres Hy Hlen Hbin Hraw.
  destruct (res_clean_spec raw y Hlen) as (rc & Hrc & Hrcl & _).
  pose proof (res_clean_binary _ _ _ Hbin Hraw Hrc) as Hrcb.
  destruct (metrics_defined y rc) as (f1 & pr & rec & acc & Hf1 & Hpr & Hrec & Hacc);
    [lia | done | done |].
  destruct (alloc_spec (Ndarray rc) s) as (l & Hl & Ha).
  set (s1 := mkState (<[l := Ndarray rc]> (heap s)) (res_list s) (files s)) in *.
  assert (l ≠ y_ ed r) as Hne by (intros ->; congruence).
  assert (read_list res s = inr (raw, s)) as Hr1.
  { unfold read_list. by rewrite Hres. }
  assert (read_array (y_ ed r) s = inr (y, s)) as Hr2.
  { unfold read_array. by rewrite Hy. }
  assert (read_array (y_ ed r) s1 = inr (y, s1)) as Hr3.
  { unfold read_array, s1. cbn [heap]. by rewrite lookup_insert_ne, Hy. }
  assert (read_array l s1 = inr (rc, s1)) as Hr4.
  { unfold read_array, s1. cbn [heap]. by rewrite lookup_insert_eq. }
  exists l, rc, f1, pr, rec, acc. do 6 (split; [done |]).
  unfold score_and_append.
  step Hr1.
  step Hr2.
  step_pure Hrc.
  step Ha.
  step Hr3.
  step Hr4.
  step_pure Hf1.
  step_pure Hpr.
  step_pure Hrec.
  step_pure Hacc.
  reflexivity.
Qed.

Section Loop.
Variable llm : string → string.
Variable format : string → list (string * string) → string → string.
Variable template : string.

Lemma run_body_spec event_key ed examples r s y :
  heap s !! y_ ed r = Some (Ndarray y) →
  length y = length (X_ ed r) →
  Forall binary y →
  ∃ s', run_body llm format template event_key ed examples r s = inr (tt, s') ∧
        appended llm format template [(event_key, ed, examples, r)] s s'.
Proof.
  intros Hy Hlen Hbin.
  set (c := (event_key, ed, examples, r)).
  set (out := raw_predictions llm format template c).
  assert (length out = length y) as Hout.
  { unfold out, c, raw_predictions. rewrite length_map. lia. }
  destruct (alloc_spec (PyList out) s) as (l1 & Hl1 & Ha1).
  set (s1 := mkState (<[l1 := PyList out]> (heap s)) (res_list s) (files s)) in *.
  assert (l1 ≠ y_ ed r) as Hne1 by (intros ->; congruence).
  assert (event_llm_predict llm format template (prompt_dict ed examples) (X_ ed r) s
          = inr (l1, s1)) as Hp.
  { unfold event_llm_predict. erewrite bind_inr; [exact Ha1 |].
    unfold lift. by rewrite predict_eq by (unfold event_llm_batch_size; lia). }
  destruct (score_and_append_spec event_key ed examples r l1 s1 out y)
    as (l2 & rc & f1 & pr & rec & acc & Hl2 & Hrc & Hf1 & Hpr & Hrec & Hacc & Hrun).
  { unfold s1. cbn [heap]. by rewrite lookup_insert_eq. }
  { unfold s1. cbn [heap]. by rewrite lookup_insert_ne. }
  { done. }
  { done. }
  { apply raw_predictions_labels. }
  assert (l2 ≠ l1) as Hne2.
  { intros ->. unfold s1 in Hl2. cbn [heap] in Hl2. by rewrite lookup_insert_eq in Hl2. }
  assert (l2 ≠ y_ ed r) as Hne3.
  { intros ->. unfold s1 in Hl2. cbn [heap] in Hl2.
    rewrite lookup_insert_ne in Hl2 by done. congruence. }
  eexists. split.
  - unfold run_body. step Hp. exact Hrun.
  - unfold appended. eexists. split_and!.
    + cbn [heap]. trans (heap s1).
      * unfold s1. cbn [heap]. by apply insert_subseteq.
      * by apply insert_subseteq.
    + reflexivity.
    + reflexivity.
    + constructor; [| constructor]. cbn [heap]. unfold s1. cbn [heap].
      exists l1, y, rc, f1, pr, rec, acc. split; [reflexivity |].
      split; [by rewrite lookup_insert_ne, lookup_insert_eq |].
      split; [by rewrite !lookup_insert_ne |]. done.
Qed.

Lemma record_of_mono h h' c d :
  h ⊆ h' → record_of llm format template h c d → record_of llm format template h' c d.
Proof.
  intros Hsub. destruct c as [[[key ed] examples] r].
  intros (res & y & rc & f1 & pr & rec & acc & -> & Hres & Hy & Hrest).
  exists res, y, rc, f1, pr, rec, acc. split; [done |].
  split; [by eapply lookup_weaken |]. split; [by eapply lookup_weaken |]. done.
Qed.

Lemma ready_mono dd h h' : h ⊆ h' → ready dd h → ready dd h'.
Proof.
  intros Hsub Hr key ed r Hin. destruct (Hr key ed r Hin) as (y & Hy & Hrest).
  exists y. split; [by eapply lookup_weaken | done].
Qed.

Lemma appended_nil s : appended llm format template [] s s.
Proof.
  exists []. split; [done |]. split; [by rewrite app_nil_r |]. split; [done |].
  constructor.
Qed.

Lemma appended_app cs1 cs2 s s1 s2 :
  appended llm format template cs1 s s1 →
  appended llm format template cs2 s1 s2 →
  appended llm format template (cs1 ++ cs2) s s2.
Proof.
  intros (ds1 & Hh1 & Hr1 & Hf1 & HF1) (ds2 & Hh2 & Hr2 & Hf2 & HF2).
  exists (ds1 ++ ds2)%list. split; [by trans (heap s1) |].
  split; [by rewrite Hr2, Hr1, app_assoc |]. split; [congruence |].
  apply Forall2_app; [| done].
  eapply Forall2_impl; [exact HF1 |]. intros c d. by apply record_of_mono.
Qed.

Lemma appended_heap cs s s' : appended llm format template cs s s' → heap s ⊆ heap s'.
Proof. by intros (ds & Hh & _). Qed.

(** A loop whose body appends the records of the passes [f x] appends the
    records of all the passes, in order. *)
Lemma for_each_spec {A} (f : A → list combo) dd (l : list A) (body : A → M unit) :
  (∀ x s, x ∈ l → ready dd (heap s) →
     ∃ s', body x s = inr (tt, s') ∧ appended llm format template (f x) s s') →
  ∀ s, ready dd (heap s) →
    ∃ s', for_each l body s = inr (tt, s') ∧ appended llm format template (l ≫= f) s s'.
Proof.
  induction l as [| x l IH]; intros Hbody s Hs.
  - exists s. split; [done | apply appended_nil].
  - destruct (Hbody x s) as (s1 & Hx & Ha1); [left | done |].
    destruct (IH (λ x' s' Hin, Hbody x' s' (list_elem_of_further _ _ _ Hin)) s1)
      as (s2 & Hl & Ha2).
    { eapply ready_mono; [eapply appended_heap, Ha1 | done]. }
    exists s2. split.
    + simpl. erewrite bind_inr; [exact Hl | exact Hx].
    + rewrite bind_cons. by eapply appended_app.
Qed.

Lemma experiment_loops dd0 dd s :
  dd ⊆ dd0 →
  ready dd0 (heap s) →
  ∃ s', for_each dd (λ kv,
          for_each [examples (data kv.2); ""] (λ examples,
            for_each [train; test] (λ r,
              run_body llm format template kv.1 kv.2 examples r))) s = inr (tt, s') ∧
        appended llm format template (combos dd) s s'.
Proof.
  intros Hsub Hs. unfold combos.
  apply (for_each_spec _ dd0); [| done].
  intros [key ed] s1 Hin Hs1.
  apply (for_each_spec _ dd0); [| done].
  intros examples s2 _ Hs2.
  apply (for_each_spec (λ r, [(key, ed, examples, r)]) dd0); [| done].
  intros r s3 _ Hs3.
  destruct (Hs3 key ed r) as (y & Hy & Hlen & Hbin); [by apply Hsub |].
  by eapply run_body_spec.
Qed.

(** The experiment loop runs to its end; it leaves the objects of the store
    as they were and records every pass, in order. *)
Lemma experiment_spec dd s :
  ready dd (heap s) →
  ∃ s', experiment llm format template dd s = inr (tt, s') ∧
        heap s ⊆ heap s' ∧ files s' = files s ∧
        Forall2 (record_of llm format template (heap s')) (combos dd) (res_list s').
Proof.
  intros Hs. unfold experiment.
  set (s0 := mkState (heap s) [] (files s)).
  destruct (experiment_loops dd dd s0) as (s' & Hrun & ds & Hh & Hr & Hf & HF);
    [done | done |].
  exists s'. split; [| split; [done | split; [done |]]].
  - erewrite bind_inr; [exact Hrun | done].
  - by rewrite Hr.
Qed.
End Loop.

(** ** The preparation cell and the whole notebook *)

Lemma binary_labels_col df : binary_labels df → Forall binary (map col_y df).
Proof. intros H. by apply Forall_fmap. Qed.

Lemma ready_cons kv dd h : ready [kv] h → ready dd h → ready (kv :: dd) h.
Proof.
  intros H1 H2 key ed r Hin. apply elem_of_cons in Hin as [<- | Hin].
  - apply (H1 key ed r). by left.
  - by apply (H2 key ed r).
Qed.

Lemma mapR_Forall {A B} (f : A → result B) (l : list A) :
  Forall (λ a, ∃ b, f a = inr b) l → ∃ bs, mapR f l = inr bs.
Proof.
  induction 1 as [| a l [b Hb] _ [bs IH]]; [by exists [] |].
  exists (b :: bs). simpl. by rewrite Hb, IH.
Qed.

Lemma mapR_length {A B} (f : A → result B) (l : list A) : ∀ bs,
  mapR f l = inr bs → length bs = length l.
Proof.
  induction l as [| a l IH]; intros bs Hbs; simpl in Hbs.
  - by injection Hbs as <-.
  - destruct (f a) as [e | b]; simpl in Hbs; [discriminate |].
    destruct (mapR f l) as [e | bs']; simpl in Hbs; [discriminate |].
    injection Hbs as <-. simpl. by rewrite (IH bs').
Qed.

Lemma mapR_Forall2 {A B} (f : A → result B) (l : list A) : ∀ bs,
  mapR f l = inr bs → Forall2 (λ a b, f a = inr b) l bs.
Proof.
  induction l as [| a l IH]; intros bs Hbs; simpl in Hbs.
  - injection Hbs as <-. constructor.
  - destruct (f a) as [e | b] eqn:Hb; simpl in Hbs; [discriminate |].
    destruct (mapR f l) as [e | bs'] eqn:Hl; simpl in Hbs; [discriminate |].
    injection Hbs as <-. constructor; [done | by apply IH].
Qed.

Section NotebookFacts.
Variable llm : string → string.
Variable format : string → list (string * string) → string → string.
Variable read_csv : string → list row.
Variable _clean_text : string → list string → string.
Variable template : string.

Lemma prepare_spec d s :
  binary_labels (train_data d) → binary_labels (test_data d) →
  ∃ s' ed, prepare _clean_text d s = inr (ed, s') ∧
    heap s ⊆ heap s' ∧ res_list s' = res_list s ∧ files s' = files s ∧
    data ed = d ∧
    (∀ key, ready [(key, ed)] (heap s')).
Proof.
  intros Htr Hte.
  destruct (alloc_spec (Ndarray (map col_y (train_data d))) s) as (l1 & Hl1 & Ha1).
  set (s1 := mkState _ _ _) in Ha1.
  destruct (alloc_spec (Ndarray (map col_y (test_data d))) s1) as (l2 & Hl2 & Ha2).
  set (s2 := mkState _ _ _) in Ha2.
  assert (l2 ≠ l1) as Hne.
  { intros ->. unfold s1 in Hl2. cbn [heap] in Hl2. by rewrite lookup_insert_eq in Hl2. }
  eexists s2, _. split.
  { unfold prepare. step Ha1.
    step Ha2. reflexivity. }
  split.
  { trans (heap s1); [unfold s1 | unfold s2]; cbn [heap]; by apply insert_subseteq. }
  split; [done |]. split; [done |]. split; [done |].
  intros key key' ed r Hin. apply list_elem_of_singleton in Hin. injection Hin as -> ->.
  destruct r; cbn [y_ X_ y_train y_test X_train X_test]; unfold s2, s1; cbn [heap].
  - exists (map col_y (train_data d)).
    split; [by rewrite lookup_insert_ne, lookup_insert_eq |].
    split; [by rewrite !length_map | by apply binary_labels_col].
  - exists (map col_y (test_data d)).
    split; [by rewrite lookup_insert_eq |].
    split; [by rewrite !length_map | by apply binary_labels_col].
Qed.

Lemma prepare_all_spec dd : ∀ s,
  Forall (λ kv, binary_labels (train_data kv.2) ∧ binary_labels (test_data kv.2)) dd →
  ∃ s' eds, prepare_all _clean_text dd s = inr (eds, s') ∧
    heap s ⊆ heap s' ∧ res_list s' = res_list s ∧ files s' = files s ∧
    ready eds (heap s') ∧
    Forall2 (λ kv ked, ked.1 = kv.1 ∧ data ked.2 = kv.2) dd eds.
Proof.
  induction dd as [| [key d] dd IH]; intros s Hbin.
  - exists s, []. split; [done |]. split; [done |]. split; [done |]. split; [done |].
    split; [| constructor]. intros key ed r Hin. by apply elem_of_nil in Hin.
  - apply Forall_cons in Hbin as [[Htr Hte] Hbin]. simpl in Htr, Hte.
    destruct (prepare_spec d s Htr Hte) as (s1 & ed & Hp & Hh1 & Hr1 & Hf1 & Hd & Hready).
    destruct (IH s1 Hbin) as (s2 & eds & Hps & Hh2 & Hr2 & Hf2 & Hready2 & HF).
    exists s2, ((key, ed) :: eds). split.
    { unfold prepare_all. simpl. erewrite bind_inr; cycle 1.
      { step Hp. reflexivity. }
      fold (prepare_all _clean_text dd). step Hps. reflexivity. }
    split; [by trans (heap s1) |]. split; [congruence |]. split; [congruence |].
    split.
    + apply ready_cons; [| done]. eapply ready_mono; [exact Hh2 | apply Hready].
    + constructor; [done | done].
Qed.

Lemma record_of_dump h c d :
  record_of llm format template h c d → ∃ j, dump_record h d = inr j.
Proof.
  destruct c as [[[key ed] examples] r].
  intros (res & y & rc & f1 & pr & rec & acc & -> & Hres & _).
  unfold dump_record. simpl. rewrite Hres. simpl.
  destruct f1, pr, rec, acc; simpl; eauto.
Qed.

(** With binary labels in the csv files the notebook runs to its end: the
    entries of [data_dict] are prepared, every pass of the loops leaves its
    record, and the records are dumped. *)
Lemma notebook_spec :
  (∀ event df, event ∈ data_lists → df ∈ ["train"; "test"] →
     binary_labels (read_csv (csv_path event df))) →
  ∃ s' dd js,
    notebook llm format read_csv _clean_text template initial_state = inr (tt, s') ∧
    Forall2 (λ kv ked, ked.1 = kv.1 ∧ data ked.2 = kv.2) (data_dict read_csv) dd ∧
    Forall2 (record_of llm format template (heap s')) (combos dd) (res_list s') ∧
    mapR (dump_record (heap s')) (res_list s') = inr js ∧
    files s' = {["llm_results.json" := js]}.
Proof.
  intros Hbin.
  destruct (prepare_all_spec (data_dict read_csv) initial_state)
    as (s1 & dd & Hprep & _ & _ & Hf1 & Hready & Hdd).
  { unfold data_dict, data_lists in *.
    repeat constructor; simpl; apply Hbin; rewrite !elem_of_cons; auto. }
  destruct (experiment_spec llm format template dd s1 Hready)
    as (s2 & Hexp & _ & Hf2 & Hrecs).
  destruct (mapR_Forall (dump_record (heap s2)) (res_list s2)) as [js Hjs].
  { apply Forall_lookup_2. intros i d Hd.
    destruct (Forall2_lookup_r _ _ _ _ _ Hrecs Hd) as (c & _ & Hc).
    by eapply record_of_dump. }
  eexists _, dd, js. split.
  { unfold notebook. step Hprep.
    step Hexp.
    unfold json_dump. rewrite Hjs. reflexivity. }
  split; [done |]. split; [done |]. split; [done |].
  cbn [files]. rewrite Hf2, Hf1. done.
Qed.
End NotebookFacts.

(** ** The result records *)

Lemma stratagy_few_shot examples : stratagy examples = "few shot" ↔ examples ≠ "".
Proof. unfold stratagy. destruct examples; simpl; split; (done || congruence). Qed.

Lemma stratagy_zero_shot examples : stratagy examples = "zero shot" ↔ examples = "".
Proof. unfold stratagy. destruct examples; simpl; split; (done || congruence). Qed.

Lemma make_record_fields event_key strat run_str res f1 precision recall accuracy :
  let d := make_record event_key strat run_str res f1 precision recall accuracy in
  keys d = record_keys ∧
  assoc "event" d = Some (VStr event_key) ∧
  assoc "stratagy" d = Some (VStr strat) ∧
  assoc "run" d = Some (VStr run_str) ∧
  assoc "res" d = Some (VRef res) ∧
  assoc "f1" d = Some (VScore f1) ∧
  assoc "precision" d = Some (VScore precision) ∧
  assoc "recall" d = Some (VScore recall) ∧
  assoc "accuracy" d = Some (VScore accuracy).
Proof. repeat split; reflexivity. Qed.

Lemma record_of_fields llm format template h key ed examples r d :
  record_of llm format template h (key, ed, examples, r) d →
  keys d = record_keys ∧
  assoc "event" d = Some (VStr key) ∧
  assoc "stratagy" d = Some (VStr (stratagy examples)) ∧
  assoc "run" d = Some (VStr (run_name r)).
Proof.
  intros (res & y & rc & f1 & pr & rec & acc & -> & _).
  destruct (make_record_fields key (stratagy examples) (run_name r) res f1 pr rec acc)
    as (Hk & He & Hs & Hr & _).
  done.
Qed.

(** C4: the experiment loop runs to its end, and in the record of every
    pass the [stratagy] field is [few shot] exactly when the examples string
    of the prompt inputs of that pass is not empty, and [zero shot] exactly
    when it is empty. The [res] of the record is what [predict] returned for
    these prompt inputs. *)
Theorem stratagy_field_follows_examples (llm : string → string)
    (format : string → list (string * string) → string → string)
    (template : string) (dd : list (string * event_dict)) (s : state) :
  ready dd (heap s) →
  ∃ s', experiment llm format template dd s = inr (tt, s') ∧
    length (res_list s') = length (combos dd) ∧
    ∀ i d, res_list s' !! i = Some d →
      ∃ key ed examples r res preds,
        combos dd !! i = Some (key, ed, examples, r) ∧
        assoc "examples" (prompt_dict ed examples) = Some examples ∧
        predict llm format event_llm_batch_size template
          (prompt_dict ed examples) (X_ ed r) = inr preds ∧
        assoc "res" d = Some (VRef res) ∧
        heap s' !! res = Some (PyList preds) ∧
        (assoc "stratagy" d = Some (VStr "few shot") ↔ examples ≠ "") ∧
        (assoc "stratagy" d = Some (VStr "zero shot") ↔ examples = "").
Proof.
  intros Hready.
  destruct (experiment_spec llm format template dd s Hready) as (s' & Hexp & _ & _ & Hrecs).
  exists s'. split; [done |]. split; [symmetry; by eapply Forall2_length |].
  intros i d Hd.
  destruct (Forall2_lookup_r _ _ _ _ _ Hrecs Hd) as ([[[key ed] examples] r] & Hc & Hrec).
  destruct Hrec as (res & y & rc & f1 & pr & rec & acc & -> & Hres & _).
  destruct (make_record_fields key (stratagy examples) (run_name r) res f1 pr rec acc)
    as (_ & _ & Hstrat & _ & Hr & _).
  exists key, ed, examples, r, res, (raw_predictions llm format template (key, ed, examples, r)).
  split; [done |]. split; [done |].
  split; [by rewrite predict_eq by (unfold event_llm_batch_size; lia) |].
  split; [done |]. split; [done |].
  rewrite Hstrat, <- stratagy_few_shot, <- stratagy_zero_shot.
  split; split; congruence.
Qed.

Lemma example_ready :
  ready [("match", example_entry)] (heap example_state).
Proof.
  intros key ed r Hin. apply list_elem_of_singleton in Hin. injection Hin as -> ->.
  destruct r.
  - exists [1; 0]%Z. split; [reflexivity |]. split; [reflexivity |].
    binary_list.
  - exists [0]%Z. split; [reflexivity |]. split; [reflexivity |].
    binary_list.
Defined.

Lemma stratagy_field_follows_examples_witness :
  ∃ s', experiment example_llm example_format "" [("match", example_entry)]
          example_state = inr (tt, s') ∧
    length (res_list s') = length (combos [("match", example_entry)]) ∧
    ∀ i d, res_list s' !! i = Some d →
      ∃ key ed examples r res preds,
        combos [("match", example_entry)] !! i = Some (key, ed, examples, r) ∧
        assoc "examples" (prompt_dict ed examples) = Some examples ∧
        predict example_llm example_format event_llm_batch_size ""
          (prompt_dict ed examples) (X_ ed r) = inr preds ∧
        assoc "res" d = Some (VRef res) ∧
        heap s' !! res = Some (PyList preds) ∧
        (assoc "stratagy" d = Some (VStr "few shot") ↔ examples ≠ "") ∧
        (assoc "stratagy" d = Some (VStr "zero shot") ↔ examples = "").
Proof.
  apply (stratagy_field_follows_examples example_llm example_format ""
           [("match", example_entry)] example_state).
  exact example_ready.
Defined.

Lemma json_record_fields event_key strat run_str raw f1 precision recall accuracy :
  let j := json_record event_key strat run_str raw f1 precision recall accuracy in
  keys j = record_keys ∧
  assoc "event" j = Some (JString event_key) ∧
  assoc "stratagy" j = Some (JString strat) ∧
  assoc "run" j = Some (JString run_str) ∧
  assoc "res" j = Some (JArray (map jnumber_of_pred raw)).
Proof. repeat split; reflexivity. Qed.

(** What the dump writes for the records of the loop. *)
Lemma dumped_records llm format template h cs ds js :
  Forall2 (record_of llm format template h) cs ds →
  mapR (dump_record h) ds = inr js →
  Forall2 (written_as h) ds js.
Proof.
  intros Hrecs. revert js.
  induction Hrecs as [| c d cs ds Hrec _ IH]; intros js Hjs; simpl in Hjs.
  - injection Hjs as <-. constructor.
  - destruct (dump_record h d) as [e | j] eqn:Hdump; simpl in Hjs; [discriminate |].
    destruct (mapR (dump_record h) ds) as [e | js'] eqn:Hrest; simpl in Hjs; [discriminate |].
    injection Hjs as <-. constructor; [| by apply IH].
    destruct c as [[[key ed] examples] r].
    destruct Hrec as (res & y & rc & f1 & pr & rec & acc & -> & Hres & _).
    exists key, (stratagy examples), (run_name r), res,
      (raw_predictions llm format template (key, ed, examples, r)), f1, pr, rec, acc.
    split; [done |]. split; [done |].
    unfold dump_record in Hdump. simpl in Hdump. rewrite Hres in Hdump. simpl in Hdump.
    destruct f1, pr, rec, acc; simpl in Hdump; by injection Hdump as <-.
Qed.

(** The strings of a record are the strings of its JSON object. *)
Lemma written_as_strings h ds js : ∀ l : list (string * string * string),
  Forall2 (written_as h) ds js →
  map (λ d, (assoc "event" d, assoc "stratagy" d, assoc "run" d)) ds =
    map (λ t, (Some (VStr t.1.1), Some (VStr t.1.2), Some (VStr t.2))) l →
  Forall (λ j, keys j = record_keys) js ∧
  map (λ j, (assoc "event" j, assoc "stratagy" j, assoc "run" j)) js =
    map (λ t, (Some (JString t.1.1), Some (JString t.1.2), Some (JString t.2))) l.
Proof.
  intros l HJ. revert l.
  induction HJ as [| d j ds js Hdj _ IH]; intros [| t l] Hmap; try discriminate.
  - split; [constructor | done].
  - destruct Hdj as (ev & st & rn & res & raw & f1 & pr & rec & acc & -> & _ & ->).
    destruct (make_record_fields ev st rn res f1 pr rec acc) as (_ & He & Hs & Hr & _).
    destruct (json_record_fields ev st rn raw f1 pr rec acc) as (Hk & Hje & Hjs & Hjr & _).
    cbn [map] in Hmap. rewrite He, Hs, Hr in Hmap.
    injection Hmap as Hev Hst Hrn Hmap.
    destruct (IH l Hmap) as [Hkeys Hrest].
    split; [by constructor |].
    cbn [map]. by rewrite Hje, Hjs, Hjr, Hrest, Hev, Hst, Hrn.
Qed.

(** C5: with binary labels in the csv files, the notebook appends exactly
    eight records, one per event (farnborough, rugby), prompting strategy
    (few shot, zero shot) and run (train, test), in the order of the nested
    loops; each record has the keys event, stratagy, run, res, f1, precision,
    recall and accuracy; and the file llm_results.json holds the complete
    list: eight JSON objects, in the same order, each with the eight keys
    and with the fields of its record, the [res] member being the list the
    record refers to. *)
Theorem experiment_eight_records (llm : string → string)
    (format : string → list (string * string) → string → string)
    (read_csv : string → list row) (_clean_text : string → list string → string)
    (template : string) :
  (∀ event df, event ∈ data_lists → df ∈ ["train"; "test"] →
     binary_labels (read_csv (csv_path event df))) →
  ∃ s' js,
    notebook llm format read_csv _clean_text template initial_state = inr (tt, s') ∧
    map (λ d, (assoc "event" d, assoc "stratagy" d, assoc "run" d)) (res_list s') =
      [(Some (VStr "farnborough"), Some (VStr "few shot"), Some (VStr "train"));
       (Some (VStr "farnborough"), Some (VStr "few shot"), Some (VStr "test"));
       (Some (VStr "farnborough"), Some (VStr "zero shot"), Some (VStr "train"));
       (Some (VStr "farnborough"), Some (VStr "zero shot"), Some (VStr "test"));
       (Some (VStr "rugby"), Some (VStr "few shot"), Some (VStr "train"));
       (Some (VStr "rugby"), Some (VStr "few shot"), Some (VStr "test"));
       (Some (VStr "rugby"), Some (VStr "zero shot"), Some (VStr "train"));
       (Some (VStr "rugby"), Some (VStr "zero shot"), Some (VStr "test"))] ∧
    Forall (λ d, keys d = record_keys) (res_list s') ∧
    files s' !! "llm_results.json" = Some js ∧
    mapR (dump_record (heap s')) (res_list s') = inr js ∧
    length js = 8 ∧
    Forall2 (written_as (heap s')) (res_list s') js ∧
    Forall (λ j, keys j = record_keys) js ∧
    map (λ j, (assoc "event" j, assoc "stratagy" j, assoc "run" j)) js =
      [(Some (JString "farnborough"), Some (JString "few shot"), Some (JString "train"));
       (Some (JString "farnborough"), Some (JString "few shot"), Some (JString "test"));
       (Some (JString "farnborough"), Some (JString "zero shot"), Some (JString "train"));
       (Some (JString "farnborough"), Some (JString "zero shot"), Some (JString "test"));
       (Some (JString "rugby"), Some (JString "few shot"), Some (JString "train"));
       (Some (JString "rugby"), Some (JString "few shot"), Some (JString "test"));
       (Some (JString "rugby"), Some (JString "zero shot"), Some (JString "train"));
       (Some (JString "rugby"), Some (JString "zero shot"), Some (JString "test"))].
Proof.
  intros Hbin.
  destruct (notebook_spec llm format read_csv _clean_text template Hbin)
    as (s' & dd & js & Hnb & Hdd & Hrecs & Hjs & Hfiles).
  exists s', js. split; [done |].
  pose proof (dumped_records _ _ _ _ _ _ _ Hrecs Hjs) as HJ.
  assert (map (λ d, (assoc "event" d, assoc "stratagy" d, assoc "run" d)) (res_list s') =
            map (λ t : string * string * string,
                   (Some (VStr t.1.1), Some (VStr t.1.2), Some (VStr t.2)))
              [("farnborough", "few shot", "train"); ("farnborough", "few shot", "test");
               ("farnborough", "zero shot", "train"); ("farnborough", "zero shot", "test");
               ("rugby", "few shot", "train"); ("rugby", "few shot", "test");
               ("rugby", "zero shot", "train"); ("rugby", "zero shot", "test")] ∧
          Forall (λ d, keys d = record_keys) (res_list s')) as [Htriple Hkeys].
  { clear HJ Hjs Hfiles js.
    destruct s' as [h rl fs]. cbn [heap res_list files] in *. clear Hnb.
    unfold data_dict in Hdd.
    apply Forall2_cons_inv_l in Hdd as ([k1 ed1] & dd1 & [Hk1 Hd1] & Hdd & ->).
    apply Forall2_cons_inv_l in Hdd as ([k2 ed2] & dd2 & [Hk2 Hd2] & Hdd & ->).
    apply Forall2_nil_inv_l in Hdd as ->.
    simpl in Hk1, Hd1, Hk2, Hd2. subst k1 k2.
    unfold combos in Hrecs. cbn [mbind list_bind app fst snd] in Hrecs.
    rewrite Hd1, Hd2 in Hrecs. cbn [examples] in Hrecs.
    repeat match type of Hrecs with
      | Forall2 _ (_ :: _) _ =>
          let d := fresh "d" in let ds := fresh "ds" in let Hd := fresh "Hrec" in
          apply Forall2_cons_inv_l in Hrecs as (d & ds & Hd & Hrecs & ->);
          apply record_of_fields in Hd as (? & ? & ? & ?)
      end.
    apply Forall2_nil_inv_l in Hrecs as ->.
    split.
    - cbn [map fst snd]. repeat f_equal; done.
    - by repeat constructor. }
  destruct (written_as_strings _ _ _ _ HJ Htriple) as [Hjkeys Hjtriple].
  split; [exact Htriple |]. split; [done |].
  split; [by rewrite Hfiles, lookup_singleton_eq |]. split; [done |].
  split.
  { rewrite <- (Forall2_length _ _ _ HJ).
    apply (f_equal length) in Htriple. by rewrite !length_map in Htriple. }
  split; [done |]. split; [done |]. exact Hjtriple.
Qed.

Lemma example_csv_binary : ∀ event df,
  event ∈ data_lists → df ∈ ["train"; "test"] →
  binary_labels (example_csv (csv_path event df)).
Proof.
  intros event df _ _. unfold binary_labels, example_csv.
  binary_list.
Defined.

Lemma experiment_eight_records_witness :
  ∃ s' js,
    notebook example_llm example_format example_csv DataProcessing._clean_text
      "Post: {post}" initial_state = inr (tt, s') ∧
    map (λ d, (assoc "event" d, assoc "stratagy" d, assoc "run" d)) (res_list s') =
      [(Some (VStr "farnborough"), Some (VStr "few shot"), Some (VStr "train"));
       (Some (VStr "farnborough"), Some (VStr "few shot"), Some (VStr "test"));
       (Some (VStr "farnborough"), Some (VStr "zero shot"), Some (VStr "train"));
       (Some (VStr "farnborough"), Some (VStr "zero shot"), Some (VStr "test"));
       (Some (VStr "rugby"), Some (VStr "few shot"), Some (VStr "train"));
       (Some (VStr "rugby"), Some (VStr "few shot"), Some (VStr "test"));
       (Some (VStr "rugby"), Some (VStr "zero shot"), Some (VStr "train"));
       (Some (VStr "rugby"), Some (VStr "zero shot"), Some (VStr "test"))] ∧
    Forall (λ d, keys d = record_keys) (res_list s') ∧
    files s' !! "llm_results.json" = Some js ∧
    mapR (dump_record (heap s')) (res_list s') = inr js ∧
    length js = 8 ∧
    Forall2 (written_as (heap s')) (res_list s') js ∧
    Forall (λ j, keys j = record_keys) js ∧
    map (λ j, (assoc "event" j, assoc "stratagy" j, assoc "run" j)) js =
      [(Some (JString "farnborough"), Some (JString "few shot"), Some (JString "train"));
       (Some (JString "farnborough"), Some (JString "few shot"), Some (JString "test"));
       (Some (JString "farnborough"), Some (JString "zero shot"), Some (JString "train"));
       (Some (JString "farnborough"), Some (JString "zero shot"), Some (JString "test"));
       (Some (JString "rugby"), Some (JString "few shot"), Some (JString "train"));
       (Some (JString "rugby"), Some (JString "few shot"), Some (JString "test"));
       (Some (JString "rugby"), Some (JString "zero shot"), Some (JString "train"));
       (Some (JString "rugby"), Some (JString "zero shot"), Some (JString "test"))].
Proof.
  apply (experiment_eight_records example_llm example_format example_csv
           DataProcessing._clean_text "Post: {post}").
  exact example_csv_binary.
Defined.

(** ** The scores of a record *)

Lemma filter_fmap_S (P : nat → Prop) `{∀ i, Decision (P i)} (l : list nat) :
  filter P (S <$> l) = S <$> filter (λ i, P (S i)) l.
Proof.
  induction l as [| i l IH]; [done |].
  rewrite fmap_cons, !filter_cons, IH. by case_decide.
Qed.

Lemma count2_agree_agreeing (y rc : list Z) :
  length y = length rc → count2 agree y rc = length (agreeing y rc).
Proof.
  revert rc. induction y as [| t ts IH]; intros [| p ps] Hl; try done.
  simpl in Hl. unfold agreeing. cbn [length count2].
  rewrite (IH ps) by lia. unfold agreeing.
  cbn [seq]. rewrite <- fmap_S_seq, filter_cons, filter_fmap_S.
  unfold agree. simpl. destruct (Z.eqb_spec t p) as [-> | Hne].
  - rewrite decide_True by done. simpl. by rewrite length_fmap.
  - rewrite decide_False by congruence. simpl. by rewrite length_fmap.
Qed.

Lemma elem_of_agreeing (y rc : list Z) i :
  i ∈ agreeing y rc ↔ i < length y ∧ rc !! i = y !! i.
Proof.
  unfold agreeing. rewrite list_elem_of_filter, elem_of_seq. intuition lia.
Qed.

Lemma binary_scores_inv (y rc : list Z) f1 precision recall :
  f1_score y rc = inr f1 →
  precision_score y rc = inr precision →
  recall_score y rc = inr recall →
  let tp := count2 true_pos y rc in
  let fp := count2 false_pos y rc in
  let fn := count2 false_neg y rc in
  f1 = ratio (2 * tp) (2 * tp + fp + fn) ∧
  precision = ratio tp (tp + fp) ∧
  recall = ratio tp (tp + fn).
Proof.
  unfold f1_score, precision_score, recall_score.
  destruct (check_consistent_length y rc); simpl; [discriminate |].
  destruct (check_binary y rc); simpl; [discriminate |].
  intros H1 H2 H3. injection H1 as <-. injection H2 as <-. by injection H3 as <-.
Qed.

Lemma accuracy_score_inv (y rc : list Z) accuracy :
  accuracy_score y rc = inr accuracy →
  length y = length rc ∧
  accuracy = match length y with
             | O => SNaN
             | S _ => SNum (Z.of_nat (length (agreeing y rc)) # Pos.of_nat (length y))
             end.
Proof.
  unfold accuracy_score, check_consistent_length.
  destruct (decide (length y = length rc)) as [Hl | _]; simpl; [| discriminate].
  rewrite (count2_agree_agreeing _ _ Hl).
  destruct (length y); intros H; by injection H as <-.
Qed.

(** C6: the experiment loop runs to its end and leaves one record per
    pass, and in the record of every pass the four scores are those of the
    cleaned predictions (the raw predictions of the record, with nan
    replaced) against the labels of the event and run of the pass: f1,
    precision and recall by the usual formulas on the counts of true
    positives, false positives and false negatives, and accuracy as the
    fraction of the indices at which the cleaned prediction equals the
    label. The [res] of the record is the raw list. *)
Theorem scores_are_of_cleaned_predictions (llm : string → string)
    (format : string → list (string * string) → string → string)
    (template : string) (dd : list (string * event_dict)) (s : state) :
  ready dd (heap s) →
  ∃ s', experiment llm format template dd s = inr (tt, s') ∧
    length (res_list s') = length (combos dd) ∧
    ∀ i d, res_list s' !! i = Some d →
      ∃ key ed examples r res raw y cleaned f1 precision recall accuracy,
        combos dd !! i = Some (key, ed, examples, r) ∧
        assoc "res" d = Some (VRef res) ∧
        heap s' !! res = Some (PyList raw) ∧
        predict llm format event_llm_batch_size template
          (prompt_dict ed examples) (X_ ed r) = inr raw ∧
        heap s' !! y_ ed r = Some (Ndarray y) ∧
        res_clean raw y = inr cleaned ∧
        assoc "f1" d = Some (VScore f1) ∧
        assoc "precision" d = Some (VScore precision) ∧
        assoc "recall" d = Some (VScore recall) ∧
        assoc "accuracy" d = Some (VScore accuracy) ∧
        f1_score y cleaned = inr f1 ∧
        precision_score y cleaned = inr precision ∧
        recall_score y cleaned = inr recall ∧
        accuracy_score y cleaned = inr accuracy ∧
        let tp := count2 true_pos y cleaned in
        let fp := count2 false_pos y cleaned in
        let fn := count2 false_neg y cleaned in
        f1 = ratio (2 * tp) (2 * tp + fp + fn) ∧
        precision = ratio tp (tp + fp) ∧
        recall = ratio tp (tp + fn) ∧
        accuracy = match length y with
                   | O => SNaN
                   | S _ => SNum (Z.of_nat (length (agreeing y cleaned))
                                  # Pos.of_nat (length y))
                   end.
Proof.
  intros Hready.
  destruct (experiment_spec llm format template dd s Hready) as (s' & Hexp & _ & _ & Hrecs).
  exists s'. split; [done |]. split; [symmetry; by eapply Forall2_length |].
  intros i d Hd.
  destruct (Forall2_lookup_r _ _ _ _ _ Hrecs Hd) as ([[[key ed] examples] r] & Hc & Hrec).
  destruct Hrec as (res & y & rc & f1 & pr & rec & acc & -> & Hres & Hy & Hrc
                    & Hf1 & Hpr & Hrec & Hacc).
  destruct (make_record_fields key (stratagy examples) (run_name r) res f1 pr rec acc)
    as (_ & _ & _ & _ & Hr & Hdf1 & Hdpr & Hdrec & Hdacc).
  destruct (binary_scores_inv _ _ _ _ _ Hf1 Hpr Hrec) as (Ef1 & Epr & Erec).
  destruct (accuracy_score_inv _ _ _ Hacc) as [_ Eacc].
  exists key, ed, examples, r, res, (raw_predictions llm format template (key, ed, examples, r)),
    y, rc, f1, pr, rec, acc.
  split; [done |]. split; [done |]. split; [done |].
  split; [by rewrite predict_eq by (unfold event_llm_batch_size; lia) |].
  do 10 (split; [done |]). done.
Qed.

Lemma scores_are_of_cleaned_predictions_witness :
  ∃ s', experiment example_llm example_format "" [("match", example_entry)]
          example_state = inr (tt, s') ∧
    length (res_list s') = length (combos [("match", example_entry)]) ∧
    ∀ i d, res_list s' !! i = Some d →
      ∃ key ed examples r res raw y cleaned f1 precision recall accuracy,
        combos [("match", example_entry)] !! i = Some (key, ed, examples, r) ∧
        assoc "res" d = Some (VRef res) ∧
        heap s' !! res = Some (PyList raw) ∧
        predict example_llm example_format event_llm_batch_size ""
          (prompt_dict ed examples) (X_ ed r) = inr raw ∧
        heap s' !! y_ ed r = Some (Ndarray y) ∧
        res_clean raw y = inr cleaned ∧
        assoc "f1" d = Some (VScore f1) ∧
        assoc "precision" d = Some (VScore precision) ∧
        assoc "recall" d = Some (VScore recall) ∧
        assoc "accuracy" d = Some (VScore accuracy) ∧
        f1_score y cleaned = inr f1 ∧
        precision_score y cleaned = inr precision ∧
        recall_score y cleaned = inr recall ∧
        accuracy_score y cleaned = inr accuracy ∧
        let tp := count2 true_pos y cleaned in
        let fp := count2 false_pos y cleaned in
        let fn := count2 false_neg y cleaned in
        f1 = ratio (2 * tp) (2 * tp + fp + fn) ∧
        precision = ratio tp (tp + fp) ∧
        recall = ratio tp (tp + fn) ∧
        accuracy = match length y with
                   | O => SNaN
                   | S _ => SNum (Z.of_nat (length (agreeing y cleaned))
                                  # Pos.of_nat (length y))
                   end.
Proof.
  apply (scores_are_of_cleaned_predictions example_llm example_format ""
           [("match", example_entry)] example_state).
  exact example_ready.
Defined.

(** ** What the post-processing leaves alone *)

(** C10: cleaning and scoring the predictions of a pass and recording them
    leaves both label arrays of the event as they were, and leaves the raw
    prediction list, to which the record refers, as [predict] returned it;
    every object of the store is unchanged (the flipped labels go to a new
    array). *)
Theorem scoring_leaves_labels_and_predictions (event_key : string)
    (ed : event_dict) (examples : string) (r : run) (res : loc) (s : state)
    (raw : list pred) (ytrain ytest : list Z) :
  heap s !! res = Some (PyList raw) →
  heap s !! y_train ed = Some (Ndarray ytrain) →
  heap s !! y_test ed = Some (Ndarray ytest) →
  length raw = length (match r with train => ytrain | test => ytest end) →
  Forall binary (match r with train => ytrain | test => ytest end) →
  Forall label_or_nan raw →
  ∃ s', score_and_append event_key ed examples r res s = inr (tt, s') ∧
    heap s' !! y_train ed = Some (Ndarray ytrain) ∧
    heap s' !! y_test ed = Some (Ndarray ytest) ∧
    heap s' !! res = Some (PyList raw) ∧
    (∀ l o, heap s !! l = Some o → heap s' !! l = Some o) ∧
    ∃ d, res_list s' = (res_list s ++ [d])%list ∧ assoc "res" d = Some (VRef res).
Proof.
  intros Hres Htr Hte Hlen Hbin Hraw.
  destruct (score_and_append_spec event_key ed examples r res s raw
              (match r with train => ytrain | test => ytest end))
    as (l & rc & f1 & pr & rec & acc & Hl & _ & _ & _ & _ & _ & Hrun);
    [done | by destruct r | done | done | done |].
  eexists. split; [exact Hrun |]. cbn [heap res_list].
  assert (∀ l' o, heap s !! l' = Some o →
            <[l := Ndarray rc]> (heap s) !! l' = Some o) as Hframe.
  { intros l' o Ho. rewrite lookup_insert_ne; [done |]. intros ->. congruence. }
  split; [by apply Hframe |]. split; [by apply Hframe |]. split; [by apply Hframe |].
  split; [done |]. eexists. split; [reflexivity |].
  by destruct (make_record_fields event_key (stratagy examples) (run_name r) res f1 pr rec acc)
    as (_ & _ & _ & _ & Hr & _).
Qed.

Lemma scoring_leaves_labels_and_predictions_witness :
  ∃ s', score_and_append "match" example_entry "" train 3%positive
          example_predicted = inr (tt, s') ∧
    heap s' !! y_train example_entry = Some (Ndarray [1; 0]%Z) ∧
    heap s' !! y_test example_entry = Some (Ndarray [0]%Z) ∧
    heap s' !! 3%positive = Some (PyList [Num 1; NaN]) ∧
    (∀ l o, heap example_predicted !! l = Some o → heap s' !! l = Some o) ∧
    ∃ d, res_list s' = (res_list example_predicted ++ [d])%list ∧
         assoc "res" d = Some (VRef 3%positive).
Proof.
  apply (scoring_leaves_labels_and_predictions "match" example_entry "" train
           3%positive example_predicted [Num 1; NaN] [1; 0]%Z [0]%Z).
  - reflexivity.
  - reflexivity.
  - reflexivity.
  - reflexivity.
  - binary_list.
  - repeat first [apply Forall_nil_2 | apply Forall_cons_2]; unfold label_or_nan, binary;
      [right; exists 1%Z; split; [reflexivity | lia] | left; reflexivity].
Defined.

(** The whole experiment leaves every object of the store it started from
    as it was, the label arrays among them. *)
Lemma experiment_frame (llm : string → string)
    (format : string → list (string * string) → string → string)
    (template : string) (dd : list (string * event_dict)) (s : state) :
  ready dd (heap s) →
  ∃ s', experiment llm format template dd s = inr (tt, s') ∧
    ∀ l o, heap s !! l = Some o → heap s' !! l = Some o.
Proof.
  intros Hready.
  destruct (experiment_spec llm format template dd s Hready) as (s' & Hexp & Hsub & _).
  exists s'. split; [done |]. intros l o Ho. by eapply lookup_weaken.
Qed.

(** ** Text cleaning *)

Section CleanText.
Import DataProcessing.

Lemma starts_url_inv s :
  starts_url s = true →
  ∃ c r, s = String "h" (String "t" (String "t" (String "p" (String c r)))) ∧
         is_space c = false.
Proof.
  destruct s as [| c1 [| c2 [| c3 [| c4 [| c r]]]]]; simpl; try discriminate.
  rewrite !andb_true_iff, !Ascii.eqb_eq, negb_true_iff.
  intros [[[[-> ->] ->] ->] Hc]. by exists c, r.
Qed.

Lemma starts_url_space c r : is_space c = true → starts_url (String c r) = false.
Proof.
  intros Hc. destruct (starts_url (String c r)) eqn:Hs; [| done].
  apply starts_url_inv in Hs as (c' & r' & Heq & _). injection Heq as -> _.
  discriminate.
Qed.

(** Inside a URL the pass yields nothing up to the next blank. *)
Lemma strip_urls_true_head s :
  strip_urls true s = "" ∨ ∃ c t, strip_urls true s = String c t ∧ is_space c = true.
Proof.
  induction s as [| c r IH]; [by left |].
  simpl. destruct (is_space c) eqn:Hc; [| done].
  right. by exists c, (strip_urls false r).
Qed.

(** A character that is not blank comes out of the pass only where the
    input has it, outside a URL. *)
Lemma strip_urls_false_head s c t :
  strip_urls false s = String c t → is_space c = false →
  ∃ r, s = String c r ∧ strip_urls false r = t ∧ starts_url s = false.
Proof.
  destruct s as [| c' r]; [discriminate |].
  intros Hs Hc. cbn [strip_urls] in Hs.
  destruct (starts_url (String c' r)) eqn:Hurl.
  - destruct (strip_urls_true_head r) as [He | (c0 & t0 & He & Hc0)];
      rewrite He in Hs; [discriminate |].
    injection Hs as -> ->. congruence.
  - injection Hs as -> <-. by exists r.
Qed.

Lemma strip_urls_no_url_here b s : starts_url (strip_urls b s) = false.
Proof.
  destruct b.
  - destruct (strip_urls_true_head s) as [-> | (c & t & -> & Hc)]; [done |].
    by apply starts_url_space.
  - destruct (starts_url (strip_urls false s)) eqn:Hs; [| done].
    apply starts_url_inv in Hs as (c & t & Hout & Hc).
    apply strip_urls_false_head in Hout as (r1 & -> & Hout & Hno); [| done].
    apply strip_urls_false_head in Hout as (r2 & -> & Hout & _); [| done].
    apply strip_urls_false_head in Hout as (r3 & -> & Hout & _); [| done].
    apply strip_urls_false_head in Hout as (r4 & -> & Hout & _); [| done].
    apply strip_urls_false_head in Hout as (r5 & -> & Hout & _); [| done].
    simpl in Hno. rewrite Hc in Hno. discriminate.
Qed.

(** Every suffix of the output of a pass is the output of a pass. *)
Lemma strip_urls_suffix s : ∀ b before u,
  strip_urls b s = before +:+ u → ∃ b' s', u = strip_urls b' s'.
Proof.
  induction s as [| c r IH]; intros b before u Hs.
  - simpl in Hs. destruct before; [| discriminate]. by exists b, "".
  - destruct before as [| c0 before']; [by exists b, (String c r) |].
    cbn [strip_urls] in Hs.
    destruct b; [destruct (is_space c) | destruct (starts_url (String c r))].
    + injection Hs as _ Hs. by eapply IH.
    + by eapply (IH true (String c0 before')).
    + by eapply (IH true (String c0 before')).
    + injection Hs as _ Hs. by eapply IH.
Qed.

Lemma has_url_cons c s : has_url s → has_url (String c s).
Proof.
  intros (before & url & -> & Hurl). by exists (String c before), url.
Qed.

Lemma strip_urls_id s : ¬ has_url s → strip_urls false s = s.
Proof.
  induction s as [| c r IH]; intros Hno; [done |].
  cbn [strip_urls]. destruct (starts_url (String c r)) eqn:Hurl.
  - destruct Hno. by exists "", (String c r).
  - rewrite IH; [done |]. intros Hr. apply Hno. by apply has_url_cons.
Qed.

(** C7: whatever the text, the cleaned text has no URL at any position; a
    text that has no URL is returned as it is. *)
Theorem clean_text_strips_urls (text : string) (words : list string) :
  ¬ has_url (_clean_text text words) ∧
  (¬ has_url text → _clean_text text words = text).
Proof.
  split.
  - intros (before & url & Heq & Hurl). unfold _clean_text in Heq.
    apply strip_urls_suffix in Heq as (b' & s' & ->).
    by rewrite strip_urls_no_url_here in Hurl.
  - apply strip_urls_id.
Qed.
End CleanText.

Example clean_text_example :
  DataProcessing._clean_text "Day one http://t.co/abc1 was great, see https://x.org" []
  = "Day one  was great, see ".
Proof. reflexivity. Qed.

(** ** The ALVA data *)

Lemma drop_duplicates_names (df : list Alva.alva_row) : ∀ seen name,
  name ∈ map Alva.site_name (Alva.drop_duplicates seen df) ↔
  name ∈ map Alva.site_name df ∧ name ∉ seen.
Proof.
  induction df as [| r rest IH]; intros seen name; simpl.
  - rewrite elem_of_nil. tauto.
  - destruct (decide (Alva.site_name r ∈ seen)) as [Hin | Hnin].
    + rewrite IH, elem_of_cons. split; [tauto |].
      intros [[-> | Hr] Hs]; [done | tauto].
    + simpl. rewrite !elem_of_cons, IH, elem_of_union, elem_of_singleton. split.
      * intros [-> | [Hr Hs]]; tauto.
      * intros [[-> | Hr] Hs]; [tauto |].
        destruct (decide (name = Alva.site_name r)) as [-> | Hne]; tauto.
Qed.

Lemma drop_duplicates_NoDup (df : list Alva.alva_row) : ∀ seen,
  NoDup (map Alva.site_name (Alva.drop_duplicates seen df)).
Proof.
  induction df as [| r rest IH]; intros seen; simpl; [constructor |].
  destruct (decide (Alva.site_name r ∈ seen)) as [Hin | Hnin]; [apply IH |].
  simpl. constructor; [| apply IH].
  rewrite drop_duplicates_names, elem_of_union, elem_of_singleton. tauto.
Qed.

Lemma drop_duplicates_sublist (df : list Alva.alva_row) : ∀ seen,
  sublist (Alva.drop_duplicates seen df) df.
Proof.
  induction df as [| r rest IH]; intros seen; simpl; [constructor |].
  destruct (decide (Alva.site_name r ∈ seen)).
  - by apply sublist_cons.
  - by apply sublist_skip.
Qed.

(** C8: when the csv file is there, clean_alva_data returns a dataframe in
    which no site name occurs twice; its rows are rows of the file with the
    site name standardised, in the order of the file, and every site of the
    file is still there. *)
Theorem clean_alva_data_no_duplicate_site_names (standardise : string → string)
    (csv : gmap string (list Alva.alva_row)) (alva_data_path : string)
    (df : list Alva.alva_row) :
  csv !! alva_data_path = Some df →
  ∃ out, Alva.clean_alva_data standardise csv alva_data_path = inr out ∧
    NoDup (map Alva.site_name out) ∧
    sublist out (map (λ r, Alva.with_site_name (standardise (Alva.site_name r)) r) df) ∧
    ∀ name, name ∈ map Alva.site_name out ↔
            name ∈ map (λ r, standardise (Alva.site_name r)) df.
Proof.
  intros Hcsv. unfold Alva.clean_alva_data. rewrite Hcsv.
  eexists. split; [reflexivity |]. split; [apply drop_duplicates_NoDup |].
  split; [apply drop_duplicates_sublist |].
  intros name. rewrite drop_duplicates_names, map_map. simpl.
  split; [tauto |]. intros Hin. split; [done | apply not_elem_of_empty].
Qed.

Lemma clean_alva_data_no_duplicate_site_names_witness :
  ∃ out, Alva.clean_alva_data Alva.example_standardise Alva.example_csv "alva.csv"
           = inr out ∧
    NoDup (map Alva.site_name out) ∧
    sublist out (map (λ r, Alva.with_site_name
                             (Alva.example_standardise (Alva.site_name r)) r)
                   Alva.example_rows) ∧
    ∀ name, name ∈ map Alva.site_name out ↔
            name ∈ map (λ r, Alva.example_standardise (Alva.site_name r))
                     Alva.example_rows.
Proof.
  apply (clean_alva_data_no_duplicate_site_names Alva.example_standardise
           Alva.example_csv "alva.csv" Alva.example_rows).
  reflexivity.
Defined.

Example clean_alva_data_example :
  rbind (Alva.clean_alva_data Alva.example_standardise Alva.example_csv "alva.csv")
    (λ out, ok (map Alva.site_name out))
  = inr ["british museum"; "kew gardens"].
Proof. reflexivity. Qed.

(** ** The model wrapper *)

Section WrapperFacts.
Variable estimator : Type.
Variable features targets : Type.
Variable new_estimator : LocationData.base_model → estimator.
Variable estimator_fit : estimator → features → targets → estimator.
Variable estimator_predict : estimator → features → targets.
Variable pickle_dumps : estimator → string.
Variable pickle_loads : string → option estimator.

Lemma assoc_base_models key :
  is_Some (assoc key LocationData.base_models) ↔
  key ∈ ["linear_model"; "SVM"; "random_forest"; "xgb_model"].
Proof.
  unfold LocationData.base_models. simpl.
  rewrite !elem_of_cons, elem_of_nil.
  repeat case_decide; subst; split; intros Hx;
    try (by eauto 6); try (by destruct Hx as [? ?]).
  destruct Hx as [-> | [-> | [-> | [-> | []]]]]; congruence.
Qed.

(** C9: a model made from a string key (and no load path) exists exactly
    for the four keys linear_model, SVM, random_forest and xgb_model, and
    wraps the estimator of the base model of its key, a different base
    model for each key; fit and predict are those of the wrapped estimator;
    save writes the pickle of the wrapped estimator and no other file. *)
Theorem location_data_model_selects_and_delegates :
  (∀ key fs,
     (∃ m, LocationData.init estimator new_estimator pickle_loads key None fs = inr m) ↔
     key ∈ ["linear_model"; "SVM"; "random_forest"; "xgb_model"]) ∧
  (∀ key fs m,
     LocationData.init estimator new_estimator pickle_loads key None fs = inr m →
     LocationData.model estimator m = key ∧
     ∃ b, assoc key LocationData.base_models = Some b ∧
          LocationData.base estimator m = new_estimator b) ∧
  map snd LocationData.base_models =
    [LocationData.linear_model; LocationData.SVM;
     LocationData.random_forest; LocationData.xgb_model] ∧
  NoDup (map fst LocationData.base_models) ∧
  (∀ m X y,
     LocationData.base estimator
       (LocationData.fit estimator features targets estimator_fit m X y)
     = estimator_fit (LocationData.base estimator m) X y ∧
     LocationData.model estimator
       (LocationData.fit estimator features targets estimator_fit m X y)
     = LocationData.model estimator m) ∧
  (∀ m X,
     LocationData.predict estimator features targets estimator_predict m X
     = estimator_predict (LocationData.base estimator m) X) ∧
  (∀ m path fs,
     LocationData.save estimator pickle_dumps m path fs !! path
     = Some (pickle_dumps (LocationData.base estimator m)) ∧
     ∀ other, other ≠ path →
       LocationData.save estimator pickle_dumps m path fs !! other = fs !! other).
Proof.
  split_and!.
  - intros key fs. rewrite <- assoc_base_models. unfold LocationData.init.
    destruct (assoc key LocationData.base_models) as [b |]; split.
    + by eexists.
    + by eexists.
    + by intros [m Hm].
    + by intros [b Hb].
  - intros key fs m. unfold LocationData.init.
    destruct (assoc key LocationData.base_models) as [b |]; [| discriminate].
    intros Hm. injection Hm as <-. split; [done |]. by exists b.
  - reflexivity.
  - simpl. repeat (constructor; [rewrite ?elem_of_cons, elem_of_nil; intuition congruence |]).
    constructor.
  - done.
  - done.
  - intros m path fs. unfold LocationData.save. split.
    + apply lookup_insert_eq.
    + intros other Hne. by apply lookup_insert_ne.
Qed.
End WrapperFacts.

(** ** The definitions, evaluated on small inputs *)

Example res_clean_example :
  res_clean [Num 1; NaN; Num 0; NaN] [1; 1; 1; 0]%Z = inr [1; 0; 0; 1]%Z.
Proof. reflexivity. Qed.

(** A prediction list longer than the labels fails only if a [nan] lies past
    the end of the labels. *)
Example res_clean_past_the_end :
  res_clean [Num 1; NaN] [1]%Z = inl IndexError ∧
  res_clean [NaN; Num 1] [1]%Z = inr [0; 1]%Z.
Proof. split; reflexivity. Qed.

Example scores_example :
  f1_score [1; 0; 1; 1]%Z [1; 1; 0; 1]%Z = inr (SNum (4 # 6)) ∧
  precision_score [1; 0; 1; 1]%Z [1; 1; 0; 1]%Z = inr (SNum (2 # 3)) ∧
  recall_score [1; 0; 1; 1]%Z [1; 1; 0; 1]%Z = inr (SNum (2 # 3)) ∧
  accuracy_score [1; 0; 1; 1]%Z [1; 1; 0; 1]%Z = inr (SNum (2 # 4)) ∧
  accuracy_score [] [] = inr SNaN ∧
  f1_score [1; 0]%Z [1]%Z = inl ValueError.
Proof. repeat split; reflexivity. Qed.

(** The binary average: two labels one of which is 1 are scored, a third
    label or two labels without 1 are rejected, and a single label is
    scored whatever it is. *)
Example binary_average_example :
  f1_score [-1; 1]%Z [1; 1]%Z = inr (SNum (2 # 3)) ∧
  precision_score [0; 1; 2]%Z [0; 1; 1]%Z = inl ValueError ∧
  recall_score [0; 2]%Z [0; 2]%Z = inl ValueError ∧
  f1_score [0; 0]%Z [0; 0]%Z = inr (SNum 0) ∧
  accuracy_score [0; 1; 2]%Z [0; 1; 1]%Z = inr (SNum (2 # 3)).
Proof. repeat split; reflexivity. Qed.

Example batches_example :
  batches 5 [1; 2; 3; 4; 5; 6; 7; 8; 9; 10; 11; 12]
  = [[1; 2; 3; 4; 5]; [6; 7; 8; 9; 10]; [11; 12]].
Proof. reflexivity. Qed.

Example predict_example :
  predict example_llm example_format 5 "" []
    ["at the stadium now"; "what a day"; "watching on tv"]
  = inr [Num 1; NaN; Num 0].
Proof. reflexivity. Qed.

(** The example entry through the experiment loop: four records, and the
    store holds the label arrays (1, 2), the raw lists (3, 5, 7, 9) and the
    cleaned arrays (4, 6, 8, 10). *)
Example experiment_example :
  match experiment example_llm example_format "" [("match", example_entry)] example_state with
  | inr (_, s') =>
      map (λ d, (assoc "stratagy" d, assoc "run" d, assoc "res" d, assoc "accuracy" d))
        (res_list s') =
        [(Some (VStr "few shot"), Some (VStr "train"), Some (VRef 3%positive),
          Some (VScore (SNum (1 # 2))));
         (Some (VStr "few shot"), Some (VStr "test"), Some (VRef 5%positive),
          Some (VScore (SNum (1 # 1))));
         (Some (VStr "zero shot"), Some (VStr "train"), Some (VRef 7%positive),
          Some (VScore (SNum (1 # 2))));
         (Some (VStr "zero shot"), Some (VStr "test"), Some (VRef 9%positive),
          Some (VScore (SNum (1 # 1))))] ∧
      heap s' !! 1%positive = Some (Ndarray [1; 0]%Z) ∧
      heap s' !! 3%positive = Some (PyList [Num 1; NaN]) ∧
      heap s' !! 4%positive = Some (Ndarray [1; 1]%Z)
  | inl _ => False
  end.
Proof. vm_compute. repeat split; reflexivity. Qed.

(** * Further properties of the notebook *)

(** ** When the cleaning of line 229 raises *)

Lemma clean_from_raises y res : ∀ idx e,
  clean_from y idx res = inl e →
  e = IndexError ∧ ∃ k, res !! k = Some NaN ∧ length y ≤ idx + k.
Proof.
  induction res as [| i rest IH]; intros idx e He; simpl in He; [discriminate |].
  destruct (clean_one y idx i) as [e1 | v] eqn:Hv; simpl in He.
  - injection He as <-. destruct i as [z |]; simpl in Hv; [discriminate |].
    destruct (y !! idx) eqn:Hy; [discriminate |]. injection Hv as <-.
    split; [done |]. exists 0. split; [done |].
    apply lookup_ge_None in Hy. lia.
  - destruct (clean_from y (S idx) rest) as [e2 | vs] eqn:Hvs; simpl in He; [| discriminate].
    injection He as <-. destruct (IH _ _ Hvs) as (-> & k & Hk & Hlen).
    split; [done |]. exists (S k). split; [done | lia].
Qed.

Lemma clean_from_nan_past_end y res : ∀ idx k,
  res !! k = Some NaN → length y ≤ idx + k →
  clean_from y idx res = inl IndexError.
Proof.
  induction res as [| i rest IH]; intros idx k Hk Hlen; [by rewrite lookup_nil in Hk |].
  simpl. destruct k as [| k]; simpl in Hk.
  - injection Hk as ->. simpl.
    rewrite (lookup_ge_None_2 y idx) by lia. done.
  - destruct (clean_one y idx i) as [e1 | v] eqn:Hv; simpl.
    + destruct i as [z |]; simpl in Hv; [discriminate |].
      destruct (y !! idx); [discriminate |]. by injection Hv as <-.
    + rewrite (IH (S idx) k Hk) by lia. done.
Qed.

(** X1: the cleaning of line 229 raises exactly when some prediction that
    is nan lies at an index past the end of the label array, and then it is
    IndexError; otherwise it returns one value per prediction, also for a
    prediction list longer or shorter than the labels. *)
Theorem res_clean_raises_iff_nan_past_labels (res : list pred) (y : list Z) :
  (∀ e, res_clean res y = inl e → e = IndexError) ∧
  (res_clean res y = inl IndexError ↔
     ∃ i, res !! i = Some NaN ∧ length y ≤ i) ∧
  ((∀ i, res !! i = Some NaN → i < length y) →
     ∃ rc, res_clean res y = inr rc ∧ length rc = length res).
Proof.
  split_and!.
  - intros e He. by destruct (clean_from_raises _ _ _ _ He).
  - split.
    + intros He. destruct (clean_from_raises _ _ _ _ He) as (_ & k & Hk & Hlen).
      exists k. split; [done | simpl in Hlen; lia].
    + intros (i & Hi & Hlen). by apply (clean_from_nan_past_end y res 0 i).
  - intros Hin. destruct (clean_from_spec y res 0) as (rc & Hrc & Hl & _).
    { intros k Hk. simpl. by apply Hin. }
    by exists rc.
Qed.

(** X2: predictions without nan pass the cleaning unchanged, and the labels
    are not read: it returns the same values whatever the label array, an
    empty or a shorter one included. *)
Theorem res_clean_without_nan_is_identity (zs : list Z) (y : list Z) :
  res_clean (map Num zs) y = inr zs.
Proof.
  unfold res_clean. generalize 0.
  induction zs as [| z zs IH]; intros idx; [done |].
  simpl. by rewrite IH.
Qed.

Lemma clean_from_zip y res : ∀ idx,
  idx + length res ≤ length y →
  clean_from y idx res = inr (zip_with cleaned_value res (drop idx y)).
Proof.
  induction res as [| i rest IH]; intros idx Hlen; [done |].
  simpl in Hlen.
  assert (idx < length y) as Hlt by lia.
  destruct (lookup_lt_is_Some_2 y idx Hlt) as [yv Hyv].
  rewrite (drop_S _ _ _ Hyv). simpl.
  assert (clean_one y idx i = inr (cleaned_value i yv)) as ->.
  { destruct i; simpl; [done | by rewrite Hyv]. }
  simpl. rewrite IH by lia. done.
Qed.

Lemma res_clean_zip res y :
  length res ≤ length y →
  res_clean res y = inr (zip_with cleaned_value res y).
Proof.
  intros Hlen. unfold res_clean. rewrite clean_from_zip by (simpl; lia).
  by rewrite drop_0.
Qed.

(** ** The two ways the notebook scores nan *)

Lemma count2_agree_nan_as_2 (res : list pred) : ∀ y : list Z,
  Forall binary y →
  count2 agree y (zip_with cleaned_value res y) = count2 agree y (nan_to_num res 2).
Proof.
  induction res as [| i rest IH]; intros [| yv y] Hbin; try done.
  apply Forall_cons in Hbin as [Hyv Hbin].
  cbn [zip_with nan_to_num map count2]. fold (nan_to_num rest 2).
  rewrite (IH y Hbin). f_equal.
  destruct i as [z |]; [done |]. simpl.
  destruct (flip_label_binary yv Hyv) as (_ & Hne & _).
  unfold agree. destruct (Z.eqb_spec yv (flip_label yv)); [congruence |].
  destruct Hyv as [-> | ->]; reflexivity.
Qed.

Lemma length_nan_to_num res v : length (nan_to_num res v) = length res.
Proof. apply length_map. Qed.

(** X3: for binary labels and a prediction list of the same length, the
    accuracy the inspection cell of line 333 computes, with nan replaced by
    2, is the accuracy the loop records, computed on the predictions
    cleaned by flipping the label. *)
Theorem accuracy_nan_as_2_is_recorded_accuracy (res : list pred) (y : list Z) :
  length res = length y →
  Forall binary y →
  ∃ rc acc, res_clean res y = inr rc ∧
    accuracy_score y rc = inr acc ∧
    accuracy_nan_as_2 y res = inr acc.
Proof.
  intros Hlen Hbin. rewrite res_clean_zip by lia.
  exists (zip_with cleaned_value res y).
  unfold accuracy_nan_as_2, accuracy_score, check_consistent_length.
  rewrite length_nan_to_num, length_zip_with.
  rewrite !decide_True by lia. simpl.
  rewrite count2_agree_nan_as_2 by done.
  destruct (length y); eauto.
Qed.

Lemma accuracy_nan_as_2_is_recorded_accuracy_witness :
  ∃ rc acc, res_clean [Num 1; NaN; Num 0] [1; 0; 1]%Z = inr rc ∧
    accuracy_score [1; 0; 1]%Z rc = inr acc ∧
    accuracy_nan_as_2 [1; 0; 1]%Z [Num 1; NaN; Num 0] = inr acc.
Proof.
  apply (accuracy_nan_as_2_is_recorded_accuracy [Num 1; NaN; Num 0] [1; 0; 1]%Z).
  - reflexivity.
  - binary_list.
Defined.

(** ** Predictions that are all nan *)

Lemma counts_all_nan (res : list pred) : ∀ y : list Z,
  Forall (λ i, i = NaN) res → Forall binary y →
  count2 true_pos y (zip_with cleaned_value res y) = 0 ∧
  count2 agree y (zip_with cleaned_value res y) = 0.
Proof.
  induction res as [| i rest IH]; intros [| yv y] Hnan Hbin; try done.
  apply Forall_cons in Hnan as [-> Hnan]. apply Forall_cons in Hbin as [Hyv Hbin].
  destruct (IH y Hnan Hbin) as [Htp Hag].
  cbn [zip_with count2 cleaned_value]. rewrite Htp, Hag.
  destruct Hyv as [-> | ->]; split; reflexivity.
Qed.

Lemma ratio_zero d : ∃ q, ratio 0 d = SNum q ∧ (q == 0)%Q.
Proof. destruct d; simpl; eexists; split; reflexivity. Qed.

(** X4: when no output of the model could be parsed (every prediction is
    nan), the labels being binary and not empty, the cleaned predictions
    are wrong everywhere and the four scores of the record are 0. *)
Theorem all_nan_scores_are_zero (res : list pred) (y : list Z) :
  0 < length y →
  length res = length y →
  Forall binary y →
  Forall (λ i, i = NaN) res →
  ∃ rc f1 precision recall accuracy,
    res_clean res y = inr rc ∧
    f1_score y rc = inr (SNum f1) ∧
    precision_score y rc = inr (SNum precision) ∧
    recall_score y rc = inr (SNum recall) ∧
    accuracy_score y rc = inr (SNum accuracy) ∧
    (f1 == 0)%Q ∧ (precision == 0)%Q ∧ (recall == 0)%Q ∧ (accuracy == 0)%Q.
Proof.
  intros Hpos Hlen Hbin Hnan.
  assert (Forall label_or_nan res) as Hlab.
  { eapply Forall_impl; [exact Hnan |]. intros i ->. by left. }
  pose proof (res_clean_zip res y) as Hrc. rewrite Hrc by lia.
  pose proof (res_clean_binary _ _ _ Hbin Hlab (Hrc ltac:(lia))) as Hrcb.
  destruct (counts_all_nan res y Hnan Hbin) as [Htp Hag].
  exists (zip_with cleaned_value res y).
  unfold f1_score, precision_score, recall_score, accuracy_score,
    check_consistent_length.
  rewrite length_zip_with, decide_True by lia.
  rewrite (check_binary_ok _ _ Hbin Hrcb). simpl.
  rewrite Htp, Hag. simpl.
  destruct (ratio_zero (count2 false_pos y (zip_with cleaned_value res y)
                        + count2 false_neg y (zip_with cleaned_value res y)))
    as (q1 & -> & Hq1).
  destruct (ratio_zero (count2 false_pos y (zip_with cleaned_value res y)))
    as (q2 & -> & Hq2).
  destruct (ratio_zero (count2 false_neg y (zip_with cleaned_value res y)))
    as (q3 & -> & Hq3).
  destruct (length y) as [| n]; [lia |].
  eexists q1, q2, q3, _. split_and!; try done.
Qed.

Lemma all_nan_scores_are_zero_witness :
  ∃ rc f1 precision recall accuracy,
    res_clean [NaN; NaN; NaN] [1; 0; 1]%Z = inr rc ∧
    f1_score [1; 0; 1]%Z rc = inr (SNum f1) ∧
    precision_score [1; 0; 1]%Z rc = inr (SNum precision) ∧
    recall_score [1; 0; 1]%Z rc = inr (SNum recall) ∧
    accuracy_score [1; 0; 1]%Z rc = inr (SNum accuracy) ∧
    (f1 == 0)%Q ∧ (precision == 0)%Q ∧ (recall == 0)%Q ∧ (accuracy == 0)%Q.
Proof.
  apply (all_nan_scores_are_zero [NaN; NaN; NaN] [1; 0; 1]%Z).
  - simpl. lia.
  - reflexivity.
  - binary_list.
  - repeat first [apply Forall_nil_2 | apply Forall_cons_2]; reflexivity.
Defined.

(** ** The inspection cells of lines 343 and 353 *)

Lemma np_and_same_length (a b : list bool) :
  length a = length b → np_and a b = inr (zip_with andb a b).
Proof. intros Hl. unfold np_and. by rewrite decide_True. Qed.

Lemma length_res_eq res v : length (res_eq res v) = length res.
Proof. apply length_map. Qed.

Lemma length_array_eq y v : length (array_eq y v) = length y.
Proof. apply length_map. Qed.

(** What a cell selects when the three lengths agree. *)
Lemma select_same_length {A} (v w : Z) (series : list A) (res : list pred) (y : list Z) :
  length series = length res → length res = length y →
  rbind (np_and (res_eq res v) (array_eq y w)) (series_mask series) =
    inr (map fst (filter (λ p, p.2 = true)
                    (zip series (zip_with andb (res_eq res v) (array_eq y w))))).
Proof.
  intros Hs Hl. rewrite np_and_same_length
    by (by rewrite length_res_eq, length_array_eq).
  simpl. unfold series_mask.
  rewrite decide_True; [done |].
  rewrite length_zip_with, length_res_eq, length_array_eq. lia.
Qed.

Lemma select_positions {A} (v w : Z) (series : list A) : ∀ (res : list pred) (y : list Z),
  length series = length res → length res = length y →
  Forall2 (λ i x, series !! i = Some x) (positions v w res y)
    (map fst (filter (λ p, p.2 = true)
                (zip series (zip_with andb (res_eq res v) (array_eq y w))))).
Proof.
  unfold positions.
  induction series as [| x series IH]; intros [| i res] [| yv y] Hs Hl;
    simpl in Hs, Hl; try discriminate; [constructor |].
  injection Hs as Hs. injection Hl as Hl.
  cbn [length seq]. rewrite <- fmap_S_seq, filter_cons, filter_fmap_S.
  cbn [res_eq array_eq map zip_with zip]. rewrite filter_cons. cbn [snd].
  fold (res_eq res v). fold (array_eq y w).
  assert (Forall2 (λ j x0, (x :: series) !! j = Some x0)
            (S <$> filter (λ j, (i :: res) !! S j = Some (Num v) ∧
                                (yv :: y) !! S j = Some w) (seq 0 (length res)))
            (map fst (filter (λ p, p.2 = true)
                        (zip series (zip_with andb (res_eq res v) (array_eq y w))))))
    as Hrest.
  { apply Forall2_fmap_l. apply (IH res y Hs Hl). }
  destruct i as [z |]; simpl.
  - destruct (Z.eqb_spec z v) as [-> | Hz], (Z.eqb_spec yv w) as [-> | Hy]; simpl;
      repeat case_decide; try done; try (by constructor); intuition congruence.
  - repeat case_decide; try done; intuition congruence.
Qed.

(** X5: with a prediction list, a label array and a series of the same
    length, the cell of line 353 returns the entries of the series at the
    indices where the prediction is 0 and the label is 1, and the cell of
    line 343 those where the prediction is 1 and the label is 0, each in
    increasing order of the index; an index whose prediction is nan is in
    neither list. *)
Theorem inspection_cells_select_parsed_errors {A B} (outputs : list A) (posts : list B)
    (res : list pred) (y : list Z) :
  length outputs = length res →
  length posts = length res →
  length res = length y →
  ∃ out10 out01,
    predicted_1_labelled_0 outputs res y = inr out10 ∧
    predicted_0_labelled_1 posts res y = inr out01 ∧
    Forall2 (λ i x, outputs !! i = Some x) (positions 1 0 res y) out10 ∧
    Forall2 (λ i x, posts !! i = Some x) (positions 0 1 res y) out01 ∧
    ∀ i, res !! i = Some NaN →
      (i ∉ positions 1 0 res y) ∧ (i ∉ positions 0 1 res y).
Proof.
  intros Ho Hp Hl. unfold predicted_1_labelled_0, predicted_0_labelled_1.
  rewrite !select_same_length by done.
  eexists _, _. split; [reflexivity |]. split; [reflexivity |].
  split; [by apply select_positions |]. split; [by apply select_positions |].
  intros i Hi. unfold positions. rewrite !list_elem_of_filter.
  split; intros [[Hr _] _]; congruence.
Qed.

Lemma inspection_cells_select_parsed_errors_witness :
  ∃ out10 out01,
    predicted_1_labelled_0 ["Yes"; "Maybe"; "No"; "Yes"]
      [Num 1; NaN; Num 0; Num 1] [0; 0; 1; 1]%Z = inr out10 ∧
    predicted_0_labelled_1 ["a"; "b"; "c"; "d"]
      [Num 1; NaN; Num 0; Num 1] [0; 0; 1; 1]%Z = inr out01 ∧
    Forall2 (λ i x, ["Yes"; "Maybe"; "No"; "Yes"] !! i = Some x)
      (positions 1 0 [Num 1; NaN; Num 0; Num 1] [0; 0; 1; 1]%Z) out10 ∧
    Forall2 (λ i x, ["a"; "b"; "c"; "d"] !! i = Some x)
      (positions 0 1 [Num 1; NaN; Num 0; Num 1] [0; 0; 1; 1]%Z) out01 ∧
    ∀ i, [Num 1; NaN; Num 0; Num 1] !! i = Some NaN →
      (i ∉ positions 1 0 [Num 1; NaN; Num 0; Num 1] [0; 0; 1; 1]%Z) ∧
      (i ∉ positions 0 1 [Num 1; NaN; Num 0; Num 1] [0; 0; 1; 1]%Z).
Proof.
  apply (inspection_cells_select_parsed_errors ["Yes"; "Maybe"; "No"; "Yes"]
           ["a"; "b"; "c"; "d"] [Num 1; NaN; Num 0; Num 1] [0; 0; 1; 1]%Z);
    reflexivity.
Defined.

Example inspection_cells_example :
  predicted_1_labelled_0 ["Yes"; "Maybe"; "No"; "Yes"]
    [Num 1; NaN; Num 0; Num 1] [0; 0; 1; 1]%Z = inr ["Yes"] ∧
  predicted_0_labelled_1 ["a"; "b"; "c"; "d"]
    [Num 1; NaN; Num 0; Num 1] [0; 0; 1; 1]%Z = inr ["c"].
Proof. split; reflexivity. Qed.

(** ** What the scores count and the inspection cells do not show *)

Lemma positions_cons v w (i : pred) res (yv : Z) y :
  length (positions v w (i :: res) (yv :: y)) =
  (if decide (i = Num v ∧ yv = w) then 1 else 0) + length (positions v w res y).
Proof.
  unfold positions. cbn [length seq].
  rewrite <- fmap_S_seq, filter_cons, filter_fmap_S. simpl.
  repeat case_decide; simpl; rewrite ?length_fmap; try done;
    exfalso; intuition (simplify_eq; auto).
Qed.

Lemma nan_at_cons v (i : pred) res (yv : Z) y :
  nan_at v (i :: res) (yv :: y) =
  (if decide (i = NaN ∧ yv = v) then 1 else 0) + nan_at v res y.
Proof.
  unfold nan_at. cbn [zip zip_with]. rewrite filter_cons. simpl.
  by repeat case_decide.
Qed.

Lemma flip_label_0 : flip_label 0 = 1%Z.
Proof. reflexivity. Qed.

Lemma flip_label_1 : flip_label 1 = 0%Z.
Proof. reflexivity. Qed.

Lemma cleaned_counts (res : list pred) : ∀ y : list Z,
  length res = length y →
  Forall binary y →
  Forall label_or_nan res →
  count2 true_pos y (zip_with cleaned_value res y) = length (positions 1 1 res y) ∧
  count2 false_pos y (zip_with cleaned_value res y) =
    length (positions 1 0 res y) + nan_at 0 res y ∧
  count2 false_neg y (zip_with cleaned_value res y) =
    length (positions 0 1 res y) + nan_at 1 res y.
Proof.
  induction res as [| i rest IH]; intros [| yv y] Hl Hbin Hres; try done.
  apply Forall_cons in Hbin as [Hyv Hbin]. apply Forall_cons in Hres as [Hi Hres].
  injection Hl as Hl. destruct (IH y Hl Hbin Hres) as (Htp & Hfp & Hfn).
  rewrite !positions_cons, !nan_at_cons.
  cbn [zip_with count2]. rewrite Htp, Hfp, Hfn.
  destruct Hi as [-> | (z & -> & [-> | ->])], Hyv as [-> | ->];
    cbn [cleaned_value]; rewrite ?flip_label_0, ?flip_label_1;
    repeat case_decide; try (exfalso; intuition congruence);
    split_and!; simpl; lia.
Qed.

(** X6: for binary labels and predictions of the same length that are 0, 1
    or nan, the false positives that the precision of the record counts are
    the entries the cell of line 343 lists plus the nan predictions at
    label 0, and the false negatives that the recall counts are the entries
    the cell of line 353 lists plus the nan predictions at label 1: the
    inspection cells leave out every error that comes from a nan. *)
Theorem recorded_errors_are_listed_errors_plus_nan {A B} (outputs : list A)
    (posts : list B) (res : list pred) (y : list Z) :
  length outputs = length res →
  length posts = length res →
  length res = length y →
  Forall binary y →
  Forall label_or_nan res →
  ∃ rc out10 out01,
    res_clean res y = inr rc ∧
    predicted_1_labelled_0 outputs res y = inr out10 ∧
    predicted_0_labelled_1 posts res y = inr out01 ∧
    count2 false_pos y rc = length out10 + nan_at 0 res y ∧
    count2 false_neg y rc = length out01 + nan_at 1 res y.
Proof.
  intros Ho Hp Hl Hbin Hres.
  destruct (cleaned_counts res y Hl Hbin Hres) as (_ & Hfp & Hfn).
  pose proof (select_positions 1 0 outputs res y Ho Hl) as HF10.
  pose proof (select_positions 0 1 posts res y Hp Hl) as HF01.
  eexists (zip_with cleaned_value res y), _, _.
  split; [apply res_clean_zip; lia |].
  unfold predicted_1_labelled_0, predicted_0_labelled_1.
  rewrite !select_same_length by done.
  split; [reflexivity |]. split; [reflexivity |].
  rewrite <- (Forall2_length _ _ _ HF10), <- (Forall2_length _ _ _ HF01). done.
Qed.

Lemma recorded_errors_are_listed_errors_plus_nan_witness :
  ∃ rc out10 out01,
    res_clean [Num 1; NaN; Num 0; NaN] [0; 0; 1; 1]%Z = inr rc ∧
    predicted_1_labelled_0 ["Yes"; "Maybe"; "No"; ""]
      [Num 1; NaN; Num 0; NaN] [0; 0; 1; 1]%Z = inr out10 ∧
    predicted_0_labelled_1 ["a"; "b"; "c"; "d"]
      [Num 1; NaN; Num 0; NaN] [0; 0; 1; 1]%Z = inr out01 ∧
    count2 false_pos [0; 0; 1; 1]%Z rc
      = length out10 + nan_at 0 [Num 1; NaN; Num 0; NaN] [0; 0; 1; 1]%Z ∧
    count2 false_neg [0; 0; 1; 1]%Z rc
      = length out01 + nan_at 1 [Num 1; NaN; Num 0; NaN] [0; 0; 1; 1]%Z.
Proof.
  apply (recorded_errors_are_listed_errors_plus_nan ["Yes"; "Maybe"; "No"; ""]
           ["a"; "b"; "c"; "d"] [Num 1; NaN; Num 0; NaN] [0; 0; 1; 1]%Z).
  - reflexivity.
  - reflexivity.
  - reflexivity.
  - binary_list.
  - repeat first [apply Forall_nil_2 | apply Forall_cons_2]; unfold label_or_nan, binary;
      first [left; reflexivity | right; eexists; split; [reflexivity | lia]].
Defined.

(** ** Lengths that do not match *)

Lemma np_and_mismatch (a b : list bool) :
  length a ≠ length b → length a ≠ 1 → length b ≠ 1 →
  np_and a b = inl ValueError.
Proof.
  intros Hne Ha Hb. unfold np_and. rewrite decide_False by done.
  destruct a as [| x [| x' a]], b as [| z [| z' b]]; simpl in *; done.
Qed.

(** X7: the inspection cells of lines 343 and 353 need the three lengths to
    agree. With a prediction list and a label array of different lengths,
    neither of length 1 (which numpy would broadcast), they raise
    ValueError; this is what happens when [res] holds the predictions of
    the test run and the labels are those of the train run, of another
    size. With these two of the same length, whatever it is, and a series
    of another length, they raise IndexError. *)
Theorem inspection_cells_reject_mismatch {A} (series : list A)
    (res : list pred) (y : list Z) :
  (length res ≠ length y → length res ≠ 1 → length y ≠ 1 →
     predicted_1_labelled_0 series res y = inl ValueError ∧
     predicted_0_labelled_1 series res y = inl ValueError) ∧
  (length res = length y → length series ≠ length res →
     predicted_1_labelled_0 series res y = inl IndexError ∧
     predicted_0_labelled_1 series res y = inl IndexError).
Proof.
  unfold predicted_1_labelled_0, predicted_0_labelled_1. split.
  - intros Hne Hr Hy.
    rewrite !np_and_mismatch by (by rewrite ?length_res_eq, ?length_array_eq).
    done.
  - intros Hl Hs.
    rewrite !np_and_same_length by (by rewrite length_res_eq, length_array_eq).
    simpl. unfold series_mask.
    rewrite !decide_False; [done | |];
      rewrite length_zip_with, length_res_eq, length_array_eq; lia.
Qed.

Lemma inspection_cells_reject_mismatch_witness :
  (predicted_1_labelled_0 ["p"; "q"] [Num 1; NaN] [0; 1; 1]%Z = inl ValueError ∧
   predicted_0_labelled_1 ["p"; "q"] [Num 1; NaN] [0; 1; 1]%Z = inl ValueError) ∧
  (predicted_1_labelled_0 ["p"; "q"] [Num 1] [0]%Z = inl IndexError ∧
   predicted_0_labelled_1 ["p"; "q"] [Num 1] [0]%Z = inl IndexError) ∧
  (predicted_1_labelled_0 ["p"; "q"] [Num 1; NaN; Num 0] [0; 1; 1]%Z = inl IndexError ∧
   predicted_0_labelled_1 ["p"; "q"] [Num 1; NaN; Num 0] [0; 1; 1]%Z = inl IndexError).
Proof.
  split; [| split].
  - destruct (inspection_cells_reject_mismatch ["p"; "q"] [Num 1; NaN] [0; 1; 1]%Z)
      as [Hvalue _].
    apply Hvalue; simpl; lia.
  - destruct (inspection_cells_reject_mismatch ["p"; "q"] [Num 1] [0]%Z)
      as [_ Hindex].
    apply Hindex; simpl; lia.
  - destruct (inspection_cells_reject_mismatch ["p"; "q"] [Num 1; NaN; Num 0] [0; 1; 1]%Z)
      as [_ Hindex].
    apply Hindex; simpl; lia.
Defined.

Example inspection_cell_broadcasts_one_label :
  predicted_1_labelled_0 ["p"; "q"; "r"] [Num 1; NaN; Num 1] [0]%Z = inr ["p"; "r"].
Proof. reflexivity. Qed.

Lemma bind_inl {A B} (m : M A) (k : A → M B) s e :
  m s = inl e → (m ≫= k) s = inl e.
Proof. intros H. unfold mbind, M_bind. by rewrite H. Qed.

(** X8: a prediction list whose length is not that of the labels of the run
    never gives a record: the body of the loop raises, IndexError if a nan
    prediction lies past the end of the labels (the cleaning fails) and
    ValueError otherwise (the first scoring call rejects the lengths). *)
Theorem score_and_append_rejects_mismatch (event_key : string) (ed : event_dict)
    (examples : string) (r : run) (res : loc) (s : state)
    (raw : list pred) (y : list Z) :
  heap s !! res = Some (PyList raw) →
  heap s !! y_ ed r = Some (Ndarray y) →
  length raw ≠ length y →
  ((∃ i, raw !! i = Some NaN ∧ length y ≤ i) →
     score_and_append event_key ed examples r res s = inl IndexError) ∧
  ((∀ i, raw !! i = Some NaN → i < length y) →
     score_and_append event_key ed examples r res s = inl ValueError).
Proof.
  intros Hres Hy Hne.
  assert (read_list res s = inr (raw, s)) as Hr1.
  { unfold read_list. by rewrite Hres. }
  assert (read_array (y_ ed r) s = inr (y, s)) as Hr2.
  { unfold read_array. by rewrite Hy. }
  split.
  - intros Hpast. unfold score_and_append.
    step Hr1. step Hr2. apply bind_inl. unfold lift.
    assert (res_clean raw y = inl IndexError) as Hc.
    { destruct Hpast as (i & Hi & Hlen). by apply (clean_from_nan_past_end y raw 0 i). }
    by rewrite Hc.
  - intros Hin.
    destruct (clean_from_spec y raw 0) as (rc & Hrc & Hl & _).
    { intros k Hk. simpl. by apply Hin. }
    change (res_clean raw y = inr rc) in Hrc.
    destruct (alloc_spec (Ndarray rc) s) as (l & Hl0 & Ha).
    set (s1 := mkState (<[l := Ndarray rc]> (heap s)) (res_list s) (files s)) in *.
    assert (l ≠ y_ ed r) as Hney by (intros ->; congruence).
    assert (read_array (y_ ed r) s1 = inr (y, s1)) as Hr3.
    { unfold read_array, s1. cbn [heap]. by rewrite lookup_insert_ne, Hy. }
    assert (read_array l s1 = inr (rc, s1)) as Hr4.
    { unfold read_array, s1. cbn [heap]. by rewrite lookup_insert_eq. }
    unfold score_and_append.
    step Hr1. step Hr2. step_pure Hrc. step Ha. step Hr3. step Hr4.
    apply bind_inl. unfold lift, f1_score, check_consistent_length.
    rewrite decide_False by lia. done.
Qed.

Lemma score_and_append_rejects_mismatch_witness :
  ((∃ i, [Num 1; NaN; NaN] !! i = Some NaN ∧ length [1; 0]%Z ≤ i) →
     score_and_append "match" example_entry "" train 3%positive
       (mkState (<[3%positive := PyList [Num 1; NaN; NaN]]> example_store) [] ∅)
     = inl IndexError) ∧
  ((∀ i, [Num 1; NaN; NaN] !! i = Some NaN → i < length [1; 0]%Z) →
     score_and_append "match" example_entry "" train 3%positive
       (mkState (<[3%positive := PyList [Num 1; NaN; NaN]]> example_store) [] ∅)
     = inl ValueError).
Proof.
  apply (score_and_append_rejects_mismatch "match" example_entry "" train 3%positive
           (mkState (<[3%positive := PyList [Num 1; NaN; NaN]]> example_store) [] ∅)
           [Num 1; NaN; NaN] [1; 0]%Z).
  - reflexivity.
  - reflexivity.
  - simpl. lia.
Defined.

Example score_and_append_short_predictions :
  score_and_append "match" example_entry "" train 3%positive
    (mkState (<[3%positive := PyList [Num 1]]> example_store) [] ∅)
  = inl ValueError.
Proof. reflexivity. Qed.

(** ** The records of an arbitrary [data_dict] *)

Lemma Forall2_map_eq {A B C} (f : A → C) (g : B → C) (l : list A) (k : list B) :
  Forall2 (λ a b, g b = f a) l k → map g k = map f l.
Proof. induction 1 as [| a b l k Hab _ IH]; [done |]. simpl. by rewrite Hab, IH. Qed.

Lemma combos_cons (key : string) (ed : event_dict) (dd : list (string * event_dict)) :
  combos ((key, ed) :: dd) =
  ([(key, ed, examples (data ed), train); (key, ed, examples (data ed), test);
    (key, ed, "", train); (key, ed, "", test)] ++ combos dd)%list.
Proof. reflexivity. Qed.

Lemma length_combos (dd : list (string * event_dict)) :
  length (combos dd) = 4 * length dd.
Proof.
  induction dd as [| [key ed] dd IH]; [done |].
  rewrite combos_cons, length_app. unfold combo in *. rewrite IH. simpl. lia.
Qed.

(** X9: for any [data_dict] whose label arrays are in the store, the
    experiment loop discards what [res_list] held before and leaves four
    records per entry, in the order of the entries: the two runs with the
    examples of the entry, then the two runs without examples, each time
    train before test. *)
Theorem experiment_records_in_loop_order (llm : string → string)
    (format : string → list (string * string) → string → string)
    (template : string) (dd : list (string * event_dict)) (s : state) :
  ready dd (heap s) →
  ∃ s', experiment llm format template dd s = inr (tt, s') ∧
    length (res_list s') = 4 * length dd ∧
    map (λ d, (assoc "event" d, assoc "stratagy" d, assoc "run" d)) (res_list s') =
      kv ← dd;
      [(Some (VStr kv.1), Some (VStr (stratagy (examples (data kv.2)))), Some (VStr "train"));
       (Some (VStr kv.1), Some (VStr (stratagy (examples (data kv.2)))), Some (VStr "test"));
       (Some (VStr kv.1), Some (VStr "zero shot"), Some (VStr "train"));
       (Some (VStr kv.1), Some (VStr "zero shot"), Some (VStr "test"))].
Proof.
  intros Hready.
  destruct (experiment_spec llm format template dd s Hready) as (s' & Hexp & _ & _ & Hrecs).
  exists s'. split; [done |].
  assert (map (λ d, (assoc "event" d, assoc "stratagy" d, assoc "run" d)) (res_list s') =
          map (λ c : combo, (Some (VStr c.1.1.1), Some (VStr (stratagy c.1.2)),
                             Some (VStr (run_name c.2)))) (combos dd)) as Hmap.
  { apply Forall2_map_eq. eapply Forall2_impl; [exact Hrecs |].
    intros [[[key ed] examples] r] d Hrec.
    apply record_of_fields in Hrec as (_ & -> & -> & ->). done. }
  split.
  - by rewrite <- (Forall2_length _ _ _ Hrecs), length_combos.
  - rewrite Hmap. clear. induction dd as [| [key ed] dd IH]; [done |].
    rewrite combos_cons, map_app, bind_cons. unfold combo in *. rewrite IH. reflexivity.
Qed.

Lemma experiment_records_in_loop_order_witness :
  ∃ s', experiment example_llm example_format "" [("match", example_entry)]
          example_state = inr (tt, s') ∧
    length (res_list s') = 4 * length [("match", example_entry)] ∧
    map (λ d, (assoc "event" d, assoc "stratagy" d, assoc "run" d)) (res_list s') =
      kv ← [("match", example_entry)];
      [(Some (VStr kv.1), Some (VStr (stratagy (examples (data kv.2)))), Some (VStr "train"));
       (Some (VStr kv.1), Some (VStr (stratagy (examples (data kv.2)))), Some (VStr "test"));
       (Some (VStr kv.1), Some (VStr "zero shot"), Some (VStr "train"));
       (Some (VStr kv.1), Some (VStr "zero shot"), Some (VStr "test"))].
Proof.
  apply (experiment_records_in_loop_order example_llm example_format ""
           [("match", example_entry)] example_state).
  exact example_ready.
Defined.

(** ** The preparation cell *)

(** X10: the cell of lines 145-149 keeps posts and labels aligned. For an
    entry it builds two new label arrays, distinct from each other and from
    every object already in the store, which it leaves unchanged; for each
    run, the i-th cleaned post is the cleaned text of the i-th row of the
    csv and the i-th label is the [y] of that same row. *)
Theorem prepare_keeps_posts_and_labels_aligned
    (_clean_text : string → list string → string) (d : event_data) (s : state) :
  ∃ s' ed ytrain ytest,
    prepare _clean_text d s = inr (ed, s') ∧
    data ed = d ∧
    heap s !! y_train ed = None ∧
    heap s !! y_test ed = None ∧
    y_train ed ≠ y_test ed ∧
    heap s' !! y_train ed = Some (Ndarray ytrain) ∧
    heap s' !! y_test ed = Some (Ndarray ytest) ∧
    (∀ l o, heap s !! l = Some o → heap s' !! l = Some o) ∧
    (∀ i row, train_data d !! i = Some row →
       X_train ed !! i = Some (_clean_text (col_text row) []) ∧
       ytrain !! i = Some (col_y row)) ∧
    (∀ i row, test_data d !! i = Some row →
       X_test ed !! i = Some (_clean_text (col_text row) []) ∧
       ytest !! i = Some (col_y row)) ∧
    length (X_train ed) = length ytrain ∧
    length (X_test ed) = length ytest.
Proof.
  destruct (alloc_spec (Ndarray (map col_y (train_data d))) s) as (l1 & Hl1 & Ha1).
  set (s1 := mkState _ _ _) in Ha1.
  destruct (alloc_spec (Ndarray (map col_y (test_data d))) s1) as (l2 & Hl2 & Ha2).
  set (s2 := mkState _ _ _) in Ha2.
  assert (l2 ≠ l1) as Hne.
  { intros ->. unfold s1 in Hl2. cbn [heap] in Hl2. by rewrite lookup_insert_eq in Hl2. }
  assert (heap s !! l2 = None) as Hl2s.
  { unfold s1 in Hl2. cbn [heap] in Hl2. by rewrite lookup_insert_ne in Hl2. }
  eexists s2, _, (map col_y (train_data d)), (map col_y (test_data d)). split.
  { unfold prepare. step Ha1. step Ha2. reflexivity. }
  cbn [data y_train y_test X_train X_test]. unfold s2, s1. cbn [heap].
  split_and!; try done.
  - by rewrite lookup_insert_ne, lookup_insert_eq.
  - by rewrite lookup_insert_eq.
  - intros l o Ho. rewrite !lookup_insert_ne; [done | |]; intros ->; congruence.
  - intros i row Hrow. rewrite !list_lookup_fmap, Hrow. done.
  - intros i row Hrow. rewrite !list_lookup_fmap, Hrow. done.
  - by rewrite !length_map.
  - by rewrite !length_map.
Qed.

(** ** The file written *)

Lemma record_of_dump_res llm format template h c d j :
  record_of llm format template h c d →
  dump_record h d = inr j →
  keys j = record_keys ∧
  assoc "res" j = Some (JArray (map jnumber_of_pred (raw_predictions llm format template c))).
Proof.
  destruct c as [[[key ed] examples] r].
  intros (res & y & rc & f1 & pr & rec & acc & -> & Hres & _).
  unfold dump_record. simpl. rewrite Hres. simpl.
  destruct f1, pr, rec, acc; simpl; intros Hj; injection Hj as <-; split; reflexivity.
Qed.

(** X11: the experiment loop followed by the dump (lines 215-261), for any
    [data_dict] whose label arrays are in the store, writes one JSON object
    per pass, in order, with the eight keys; its [res] member is the list
    [predict] returned for the pass, a nan included as NaN, not the cleaned
    predictions that were scored. The other files are left as they were. *)
Theorem dump_holds_raw_predictions (llm : string → string)
    (format : string → list (string * string) → string → string)
    (template : string) (dd : list (string * event_dict)) (name : string) (s : state) :
  ready dd (heap s) →
  ∃ s' js,
    (experiment llm format template dd ≫= λ _, json_dump name) s = inr (tt, s') ∧
    files s' !! name = Some js ∧
    (∀ other, other ≠ name → files s' !! other = files s !! other) ∧
    Forall2 (λ c j,
               keys j = record_keys ∧
               ∃ raw,
                 predict llm format event_llm_batch_size template
                   (prompt_dict c.1.1.2 c.1.2) (X_ c.1.1.2 c.2) = inr raw ∧
                 assoc "res" j = Some (JArray (map jnumber_of_pred raw)))
      (combos dd) js.
Proof.
  intros Hready.
  destruct (experiment_spec llm format template dd s Hready) as (s1 & Hexp & _ & Hf & Hrecs).
  destruct (mapR_Forall (dump_record (heap s1)) (res_list s1)) as [js Hjs].
  { apply Forall_lookup_2. intros i d Hd.
    destruct (Forall2_lookup_r _ _ _ _ _ Hrecs Hd) as (c & _ & Hc).
    by eapply record_of_dump. }
  eexists _, js. split.
  { step Hexp. unfold json_dump. rewrite Hjs. reflexivity. }
  cbn [files]. split; [by rewrite lookup_insert_eq |]. split.
  { intros other Hne. by rewrite lookup_insert_ne, Hf. }
  apply mapR_Forall2 in Hjs.
  apply Forall2_same_length_lookup_2.
  { etrans; [exact (Forall2_length _ _ _ Hrecs) | by eapply Forall2_length]. }
  intros i c j Hc Hj.
  destruct (Forall2_lookup_l _ _ _ _ _ Hrecs Hc) as (d & Hd & Hrec).
  pose proof (Forall2_lookup_lr _ _ _ _ _ _ Hjs Hd Hj) as Hdump.
  destruct (record_of_dump_res _ _ _ _ _ _ _ Hrec Hdump) as [Hk Hr].
  split; [done |].
  exists (raw_predictions llm format template c). split; [| done].
  destruct c as [[[key ed] examples] r]. cbn [fst snd raw_predictions].
  by rewrite predict_eq by (unfold event_llm_batch_size; lia).
Qed.

Lemma dump_holds_raw_predictions_witness :
  ∃ s' js,
    (experiment example_llm example_format "" [("match", example_entry)]
       ≫= λ _, json_dump "out.json") example_state = inr (tt, s') ∧
    files s' !! "out.json" = Some js ∧
    (∀ other, other ≠ "out.json" → files s' !! other = files example_state !! other) ∧
    Forall2 (λ c j,
               keys j = record_keys ∧
               ∃ raw,
                 predict example_llm example_format event_llm_batch_size ""
                   (prompt_dict c.1.1.2 c.1.2) (X_ c.1.1.2 c.2) = inr raw ∧
                 assoc "res" j = Some (JArray (map jnumber_of_pred raw)))
      (combos [("match", example_entry)]) js.
Proof.
  apply (dump_holds_raw_predictions example_llm example_format ""
           [("match", example_entry)] "out.json" example_state).
  exact example_ready.
Defined.

Example dump_example :
  match (experiment example_llm example_format "" [("match", example_entry)]
           ≫= λ _, json_dump "out.json") example_state with
  | inr (_, s') =>
      (λ js, map (assoc "res") js) <$> files s' !! "out.json" =
        Some [Some (JArray [JInt 1; JNaN]); Some (JArray [JInt 0]);
              Some (JArray [JInt 1; JNaN]); Some (JArray [JInt 0])]
  | inl _ => False
  end.
Proof. vm_compute. reflexivity. Qed.
